(** * Lumina headphones showcase: start-up sequence and capability gates

    A shallow embedding of [main.js] (the [App] class: [init],
    [waitForDOM], [initializeAnimations], [loadGSAPAnimations],
    [setupMouseInteractions], [setupButtonInteractions],
    [initializeWebGL], [initializeScroll], [showFallbackUI]) together
    with the capability detector of [runtime-controller.js] that it
    imports.

    Layout:
    - [Runtime]: the capability detector (score, gates, [getState],
      [isAllowed]);
    - [Js]: completions, the effect monad (state, emitted events,
      exceptions, a suspended [await]) and [try ... catch];
    - [Main]: the [App] class of [main.js], method by method, and the
      functions that read a trace;
    - [Scenario]: concrete devices and hosts;
    - [RuntimeFacts], [JsFacts], [MainFacts]: the properties of the
      detector, of runs in general and of the start-up sequence;
    - [Checks]: the properties at work on the scenarios. *)

From Stdlib Require Import ZArith QArith.
From stdpp Require Import base gmap strings list.

Local Close Scope Q_scope.
Local Open Scope Z_scope.

(* ===================================================================== *)
(** ** The capability detector *)
(* ===================================================================== *)

Module Runtime.

(** The raw inputs of the score.  [memory] is the device memory
    estimate in GiB (a JS number, possibly fractional), [cores] the
    logical core count, [network] the network quality class
    (["4g"], ["2g"], ...), [viewportWidth] in CSS pixels. *)
Record Signals := {
  memory : Q;
  cores : N;
  network : string;
  reducedMotion : bool;
  viewportWidth : Z
}.

(** What the host exposes.  Every signal is optional: an API that
    the host lacks reads as [None]. *)
Record HostSignals := {
  deviceMemory : option Q;
  hardwareConcurrency : option N;
  effectiveType : option string;
  prefersReducedMotion : option bool;
  innerWidth : option Z
}.

(** The snapshot handed to the consumer.  [decisions] is a JS object
    read by property name, hence a finite map from gate names. *)
Record CapabilityState := {
  score : Z;
  decisions : gmap string bool;
  signals : Signals
}.

(** Modelled from the spec: the point weights, the two cut points,
    the score reported under reduced motion and the defaults
    substituted for unreadable signals are tuning constants of
    [runtime-controller.js], whose text is missing.  They are kept
    as named configuration; [inclusive] says whether a score equal
    to a cut point passes it. *)
Record Tuning := {
  memoryPoints : Q -> Z;
  corePoints : N -> Z;
  networkPoints : string -> Z;
  viewportPoints : Z -> Z;
  lowCut : Z;
  highCut : Z;
  inclusive : bool;
  reducedMotionScore : Z;
  defaultMemory : Q;
  defaultCores : N;
  defaultNetwork : string;
  defaultReducedMotion : bool;
  defaultViewport : Z
}.

(** The two cut points are ordered: animations are the cheap tier. *)
Definition well_tuned (t : Tuning) : Prop := lowCut t <= highCut t.

Definition gateNames : list string :=
  ["allowAnimations"; "allowHeavy"; "allowWebGL"]%string.

(** Modelled from the spec: the fixed-shape record of the three
    gates built by [runtime-controller.js]. *)
Definition mkDecisions (anim heavy webgl : bool) : gmap string bool :=
  <["allowAnimations"%string := anim]>
    (<["allowHeavy"%string := heavy]>
       (<["allowWebGL"%string := webgl]> ∅)).

(** Modelled from the spec: reading the host signals of
    [runtime-controller.js]; an unreadable signal is replaced by its
    default and detection goes on. *)
Definition readSignals (t : Tuning) (h : HostSignals) : Signals :=
  {| memory := default (defaultMemory t) (deviceMemory h);
     cores := default (defaultCores t) (hardwareConcurrency h);
     network := default (defaultNetwork t) (effectiveType h);
     reducedMotion :=
       default (defaultReducedMotion t) (prefersReducedMotion h);
     viewportWidth := default (defaultViewport t) (innerWidth h) |}.

(** Modelled from the spec: the summed score of
    [runtime-controller.js], one weight per signal. *)
Definition sumPoints (t : Tuning) (s : Signals) : Z :=
  memoryPoints t (memory s) + corePoints t (cores s)
  + networkPoints t (network s) + viewportPoints t (viewportWidth s).

(** Modelled from the spec: comparing a score with a cut point. *)
Definition passes (t : Tuning) (cut sc : Z) : bool :=
  if inclusive t then cut <=? sc else cut <? sc.

(** Modelled from the spec: the scoring routine of
    [runtime-controller.js].  The reduced-motion preference is looked
    at first and ends the computation; otherwise the weights are
    summed and the sum is compared with the low cut point for
    [allowAnimations] and with the high one for [allowHeavy] and
    [allowWebGL]. *)
Definition computeState (t : Tuning) (s : Signals) : CapabilityState :=
  if reducedMotion s then
    {| score := reducedMotionScore t;
       decisions := mkDecisions false false false;
       signals := s |}
  else
    let sc := sumPoints t s in
    {| score := sc;
       decisions :=
         mkDecisions (passes t (lowCut t) sc)
                     (passes t (highCut t) sc)
                     (passes t (highCut t) sc);
       signals := s |}.

(** Modelled from the spec: the [runtime] object exported by
    [runtime-controller.js].  The snapshot is computed once, when the
    module is loaded, and only read afterwards. *)
Record Controller := { state : CapabilityState }.

Definition load (t : Tuning) (h : HostSignals) : Controller :=
  {| state := computeState t (readSignals t h) |}.

(** Modelled from the spec: [runtime.getState()].  Written in
    state-passing style so that successive calls can be chained; the
    controller comes back untouched. *)
Definition getState (c : Controller) : CapabilityState * Controller :=
  (state c, c).

(** Modelled from the spec: [runtime.isAllowed(gateName)], a lookup
    in the current decisions; a name that is not there reads as
    [false]. *)
Definition isAllowed (c : Controller) (gateName : string) : bool :=
  default false (decisions (state c) !! gateName).

(** Reading one gate of a snapshot the way [main.js] does
    ([runtimeState.decisions.allowAnimations] in a condition): a
    missing property is [undefined], which is falsy. *)
Definition gate (st : CapabilityState) (name : string) : bool :=
  default false (decisions st !! name).

End Runtime.

(* ===================================================================== *)
(** ** Effects of the JavaScript code *)
(* ===================================================================== *)

Module Js.

(** A thrown value: [new Error(message)] (the message may be
    [undefined]) or anything else a callee throws. *)
Inductive exn :=
| Error (message : option string)
| Thrown (what : string).

(** How a call into code that is not ours ends. *)
Inductive Completion (A : Type) :=
| Returns (a : A)
| Raises (e : exn).
Arguments Returns {A} a.
Arguments Raises {A} e.

(** How a piece of our own code ends: normally, by an exception on
    its way up, or parked for ever on an [await] whose promise never
    settles. *)
Inductive Outcome (A : Type) :=
| Normal (a : A)
| Throw (e : exn)
| Suspended.
Arguments Normal {A} a.
Arguments Throw {A} e.
Arguments Suspended {A}.

(** The fate of a promise. *)
Inductive Promise := Settled | NeverSettles.

Section Effects.
Context {St Ev : Type}.

(** A computation reads and writes a state [St], emits events
    [Ev] in order, and ends in an [Outcome]. *)
Definition M (A : Type) : Type := St -> Outcome A * St * list Ev.

Definition ret {A} (a : A) : M A := fun s => (Normal a, s, []).

Definition bind {A B} (m : M A) (k : A -> M B) : M B :=
  fun s =>
    match m s with
    | (Normal a, s1, t1) =>
        match k a s1 with
        | (r, s2, t2) => (r, s2, t1 ++ t2)
        end
    | (Throw e, s1, t1) => (Throw e, s1, t1)
    | (Suspended, s1, t1) => (Suspended, s1, t1)
    end.

Definition emit (e : Ev) : M unit := fun s => (Normal tt, s, [e]).
Definition modify (f : St -> St) : M unit := fun s => (Normal tt, f s, []).
Definition throw {A} (e : exn) : M A := fun s => (Throw e, s, []).
Definition suspend {A} : M A := fun s => (Suspended, s, []).

Definition lift {A} (c : Completion A) : M A :=
  match c with
  | Returns a => ret a
  | Raises e => throw e
  end.

Definition await (p : Promise) : M unit :=
  match p with
  | Settled => ret tt
  | NeverSettles => suspend
  end.

(** [try { body } catch (error) { handler error }]: what the body
    did before it threw stays done. *)
Definition try_catch {A} (body : M A) (handler : exn -> M A) : M A :=
  fun s =>
    match body s with
    | (Throw e, s1, t1) =>
        match handler e s1 with
        | (r, s2, t2) => (r, s2, t1 ++ t2)
        end
    | r => r
    end.

(** [if (c) { m }] *)
Definition when (c : bool) (m : M unit) : M unit :=
  if c then m else ret tt.

(** [xs.forEach(x => f x)] *)
Fixpoint forEach {A} (xs : list A) (f : A -> M unit) : M unit :=
  match xs with
  | [] => ret tt
  | x :: xs' => bind (f x) (fun _ => forEach xs' f)
  end.

Definition outcome {A} (r : Outcome A * St * list Ev) : Outcome A := r.1.1.
Definition final {A} (r : Outcome A * St * list Ev) : St := r.1.2.
Definition trace {A} (r : Outcome A * St * list Ev) : list Ev := r.2.

(** A computation that never parks on an [await]. *)
Definition sync {A} (m : M A) : Prop :=
  forall s, outcome (m s) <> Suspended.

(** A computation that leaves the state alone and emits only events
    satisfying [P]. *)
Definition quiet (P : Ev -> Prop) {A} (m : M A) : Prop :=
  forall s, final (m s) = s /\ Forall P (trace (m s)).

End Effects.

Arguments M : clear implicits.
Arguments outcome {St Ev A} !r /.
Arguments final {St Ev A} !r /.
Arguments trace {St Ev A} !r /.

Declare Scope js_scope.
Delimit Scope js_scope with js.
Notation "x <- m ;; k" := (bind m (fun x => k))
  (at level 100, m at next level, right associativity) : js_scope.
Notation "m ;; k" := (bind m (fun _ => k))
  (at level 100, right associativity) : js_scope.

End Js.


(* ===================================================================== *)
(** ** [main.js]: the [App] class *)
(* ===================================================================== *)

Module Main.
Import Js.
Local Open Scope js_scope.
Local Open Scope string_scope.

(** *** What [main.js] talks to *)

(** DOM elements and product records are opaque to [main.js]: it only
    passes them on. *)
Inductive Element := element (id : nat).
Inductive Product := product (id : nat).

(** [document.readyState] *)
Inductive ReadyState := Loading | Interactive | Complete.

(** The value returned by [adapter.renderAllProducts]. *)
Record RenderResult := {
  success : bool;
  successful : N;
  total : N;
  error : option string
}.

(** What a tween or a listener is attached to. *)
Inductive Target :=
| Document
| Selector (css : string)
| Node (el : Element).

(** The property bags handed to [gsap.to].  [Scale] carries the scale
    in hundredths and the duration in milliseconds; [Tilt] carries the
    pointer position from which the two rotations are derived. *)
Inductive Tween :=
| FloatLoop
| Tilt (clientX clientY : Z)
| TiltReset
| Scale (percent ms : Z).

(** The closures [main.js] hands out. [MouseMoveTilt] and
    [MouseLeaveReset] capture the node list queried at set-up time,
    the button handlers capture their button. *)
Inductive Callback :=
| PromiseResolve
| IntroComplete
| MouseMoveTilt (productImages : list Element)
| MouseLeaveReset (productImages : list Element)
| ButtonEnter (btn : Element)
| ButtonLeave (btn : Element)
| ButtonDown (btn : Element)
| ButtonUp (btn : Element).

(** The part of the GSAP library that is used.  Third-party code: any
    of its entry points may raise. *)
Record Gsap := {
  gsapTimeline : Completion unit;
  timelineFrom : string -> Completion unit;
  timelineEventCallback : string -> Completion unit;
  gsapTo : Target -> Tween -> Completion unit
}.

(** The environment of one run.  Calls into the imported modules
    ([runtime], [getAllProducts], [ProductAdapter]) and reads of the
    globals injected by third-party scripts ([window.gsap],
    [window.THREE]) may raise; the browser's own DOM and console do
    not.  [domContentLoadedFires] says whether the host ever delivers
    [DOMContentLoaded] to a listener registered while loading. *)
Record Host := {
  readyState : ReadyState;
  domContentLoadedFires : bool;
  runtimeGetState : Completion Runtime.CapabilityState;
  runtimeIsAllowed : string -> Completion bool;
  getAllProducts : Completion (list Product);
  renderAllProducts : list Product -> Completion RenderResult;
  windowGsap : Completion (option Gsap);
  windowTHREE : Completion (option unit);
  windowInnerWidth : Z;
  querySelectorAll : string -> list Element
}.

(** *** What a run leaves behind *)

Inductive Level := Log | Warn | Err.

(** The console messages of [main.js], by what they say. *)
Inductive Message :=
| MsgInitializing
| MsgRuntimeScore (score : Z)
| MsgDecisions (decisions : gmap string bool)
| MsgProductsRendered (successful total : N)
| MsgInitialized
| MsgInitFailed (error : exn)
| MsgAnimationsEnabled
| MsgGsapMissing
| MsgWebGLAvailable
| MsgThreeMissing
| MsgScrollInitialized.

Inductive Method :=
| InitializeAnimations
| LoadGSAPAnimations
| SetupMouseInteractions
| SetupButtonInteractions
| InitializeWebGL
| InitializeScroll
| ShowFallbackUI.

Inductive Call :=
| RuntimeGetState
| RuntimeIsAllowed (gateName : string)
| GetAllProducts
| RenderAllProducts (products : list Product)
| GsapTimeline
| TimelineFrom (css : string)
| TimelineEventCallback (event : string) (cb : Callback)
| GsapTo (target : Target) (tween : Tween)
| AddEventListener (target : Target) (event : string) (cb : Callback).

(** Everything observable, in the order it happens: console output,
    entering a method of [App], calling out, and a report to the error
    handler with its phase tag. *)
Inductive Event :=
| Console (level : Level) (msg : Message)
| Enter (m : Method)
| Called (c : Call)
| Reported (error : exn) (phase : string).

(** [document.body.innerHTML]: the page as served, or the fallback
    panel with its reload button. *)
Inductive Markup := PageContent | FallbackPanel.

(** The fields of [App] that are written ([runtime] and [adapter] are
    fixed references, kept in [Host]) and the document body. *)
Record App := { initialized : bool }.

Record World := {
  app : App;
  documentBody : Markup
}.

(** [constructor()] *)
Definition newApp : App := {| initialized := false |}.

Definition pageLoad : World := {| app := newApp; documentBody := PageContent |}.

Definition Run (A : Type) : Type := M World Event A.

(** *** Primitive steps *)

Definition console (l : Level) (m : Message) : Run unit := emit (Console l m).

(** A call into a collaborator: noted, then completed as the
    collaborator decides. *)
Definition call {A} (c : Call) (r : Completion A) : Run A :=
  emit (Called c);; lift r.

(** Modelled from the spec: [errorHandler.report(error, { phase })] of
    [error-handler.js], a fire-and-forget call; nothing it returns is
    used. *)
Definition report (error : exn) (phase : string) : Run unit :=
  emit (Reported error phase).

(** [this.initialized = true] *)
Definition setInitialized (b : bool) : Run unit :=
  modify (fun w => {| app := {| initialized := b |};
                      documentBody := documentBody w |}).

(** [document.body.innerHTML = fallbackHTML] *)
Definition setBody (m : Markup) : Run unit :=
  modify (fun w => {| app := app w; documentBody := m |}).

(** [window.gsap.f(...)]: the global is read again at each use; a
    member access on [undefined] is a [TypeError]. *)
Definition gsap (h : Host) : Run Gsap :=
  g <- lift (windowGsap h);;
  match g with
  | Some lib => ret lib
  | None => throw (Thrown "TypeError")
  end.

(** *** The methods of [App] *)

Definition waitForDOM (h : Host) : Run Promise :=
  match readyState h with
  | Complete | Interactive => ret Settled
  | Loading =>
      emit (Called (AddEventListener Document "DOMContentLoaded" PromiseResolve));;
      ret (if domContentLoadedFires h then Settled else NeverSettles)
  end.

Definition setupMouseInteractions (h : Host) : Run unit :=
  emit (Enter SetupMouseInteractions);;
  let productImages := querySelectorAll h ".main-img" in
  emit (Called (AddEventListener Document "mousemove"
                  (MouseMoveTilt productImages)));;
  emit (Called (AddEventListener Document "mouseleave"
                  (MouseLeaveReset productImages))).

Definition setupButtonInteractions (h : Host) : Run unit :=
  emit (Enter SetupButtonInteractions);;
  let buttons := querySelectorAll h ".buy-btn, .cart-btn" in
  forEach buttons (fun btn =>
    emit (Called (AddEventListener (Node btn) "mouseenter" (ButtonEnter btn)));;
    emit (Called (AddEventListener (Node btn) "mouseleave" (ButtonLeave btn)));;
    emit (Called (AddEventListener (Node btn) "mousedown" (ButtonDown btn)));;
    emit (Called (AddEventListener (Node btn) "mouseup" (ButtonUp btn)))).

Definition loadGSAPAnimations (h : Host) : Run unit :=
  emit (Enter LoadGSAPAnimations);;
  g <- gsap h;;
  call GsapTimeline (gsapTimeline g);;
  call (TimelineFrom ".product-section") (timelineFrom g ".product-section");;
  call (TimelineFrom ".info h2") (timelineFrom g ".info h2");;
  call (TimelineFrom ".info p, .mini-label, .specs-row, .buy-btn")
       (timelineFrom g ".info p, .mini-label, .specs-row, .buy-btn");;
  call (TimelineFrom ".main-img") (timelineFrom g ".main-img");;
  call (TimelineEventCallback "onComplete" IntroComplete)
       (timelineEventCallback g "onComplete");;
  heavy <- (if (1024 <? windowInnerWidth h)%Z
            then call (RuntimeIsAllowed "allowHeavy")
                      (runtimeIsAllowed h "allowHeavy")
            else ret false);;
  when heavy (setupMouseInteractions h);;
  setupButtonInteractions h.

(** The [try] block of [initializeAnimations]. *)
Definition animationsBody (h : Host) : Run unit :=
  g <- lift (windowGsap h);;
  match g with
  | Some _ =>
      loadGSAPAnimations h;;
      console Log MsgAnimationsEnabled
  | None => console Warn MsgGsapMissing
  end.

Definition initializeAnimations (h : Host) : Run unit :=
  emit (Enter InitializeAnimations);;
  try_catch (animationsBody h)
            (fun error => report error "animations").

(** The [try] block of [initializeWebGL]. *)
Definition webglBody (h : Host) : Run unit :=
  three <- lift (windowTHREE h);;
  match three with
  | Some _ => console Log MsgWebGLAvailable
  | None => console Warn MsgThreeMissing
  end.

Definition initializeWebGL (h : Host) : Run unit :=
  emit (Enter InitializeWebGL);;
  try_catch (webglBody h)
            (fun error => report error "webgl").

Definition initializeScroll : Run unit :=
  emit (Enter InitializeScroll);;
  console Log MsgScrollInitialized.

Definition showFallbackUI (error : exn) : Run unit :=
  emit (Enter ShowFallbackUI);;
  setBody FallbackPanel.

(** [init()].  It calls [this.initializeAnimations()],
    [this.initializeWebGL()] and [this.initializeScroll()]: the three
    methods are looked up on [this] when the call is made, so a
    subclass or a test double may have other code there.  [initWith]
    is the body of [init] with whatever stands at these three places
    (code that may read the world it is run in); [init] is [initWith]
    at the three methods of [App] itself. *)
Definition initWith (animations webgl scroll : Run unit) (h : Host)
  : Run unit :=
  try_catch
    (console Log MsgInitializing;;
     p <- waitForDOM h;;
     await p;;
     runtimeState <- call RuntimeGetState (runtimeGetState h);;
     console Log (MsgRuntimeScore (Runtime.score runtimeState));;
     console Log (MsgDecisions (Runtime.decisions runtimeState));;
     productData <- call GetAllProducts (getAllProducts h);;
     renderResult <- call (RenderAllProducts productData)
                          (renderAllProducts h productData);;
     when (negb (success renderResult)) (throw (Error (error renderResult)));;
     console Log (MsgProductsRendered (successful renderResult)
                                      (total renderResult));;
     when (Runtime.gate runtimeState "allowAnimations") animations;;
     when (Runtime.gate runtimeState "allowWebGL") webgl;;
     scroll;;
     setInitialized true;;
     console Log MsgInitialized)
    (fun error =>
       console Err (MsgInitFailed error);;
       report error "initialization";;
       showFallbackUI error).

Definition init (h : Host) : Run unit :=
  initWith (initializeAnimations h) (initializeWebGL h) initializeScroll h.

(** The [catch] block of [init]. *)
Definition initCatch (error : exn) : Run unit :=
  console Err (MsgInitFailed error);;
  report error "initialization";;
  showFallbackUI error.

(** The [try] block of [init] in two halves: the core sequence, up to
    the message that the products are rendered, and what follows it.
    [init_split] below shows that [init] is the one after the other
    under the [catch]. *)
Definition coreSequence (h : Host) : Run Runtime.CapabilityState :=
  console Log MsgInitializing;;
  p <- waitForDOM h;;
  await p;;
  runtimeState <- call RuntimeGetState (runtimeGetState h);;
  console Log (MsgRuntimeScore (Runtime.score runtimeState));;
  console Log (MsgDecisions (Runtime.decisions runtimeState));;
  productData <- call GetAllProducts (getAllProducts h);;
  renderResult <- call (RenderAllProducts productData)
                       (renderAllProducts h productData);;
  when (negb (success renderResult)) (throw (Error (error renderResult)));;
  console Log (MsgProductsRendered (successful renderResult)
                                   (total renderResult));;
  ret runtimeState.

Definition enhancements (h : Host) (runtimeState : Runtime.CapabilityState)
  : Run unit :=
  when (Runtime.gate runtimeState "allowAnimations")
       (initializeAnimations h);;
  when (Runtime.gate runtimeState "allowWebGL")
       (initializeWebGL h);;
  initializeScroll;;
  setInitialized true;;
  console Log MsgInitialized.

(** *** The closures, run when the host calls them back *)

Record PointerEvent := { clientX : Z; clientY : Z }.

Definition tweenTo (h : Host) (target : Target) (tw : Tween) : Run unit :=
  g <- gsap h;;
  call (GsapTo target tw) (gsapTo g target tw).

Definition handle (h : Host) (cb : Callback) (e : PointerEvent) : Run unit :=
  match cb with
  | PromiseResolve => ret tt
  | IntroComplete =>
      heavy <- call (RuntimeIsAllowed "allowHeavy")
                    (runtimeIsAllowed h "allowHeavy");;
      when heavy (tweenTo h (Selector ".main-img") FloatLoop)
  | MouseMoveTilt productImages =>
      forEach productImages (fun img =>
        tweenTo h (Node img) (Tilt (clientX e) (clientY e)))
  | MouseLeaveReset productImages =>
      forEach productImages (fun img => tweenTo h (Node img) TiltReset)
  | ButtonEnter btn => tweenTo h (Node btn) (Scale 106 250)
  | ButtonLeave btn => tweenTo h (Node btn) (Scale 100 250)
  | ButtonDown btn => tweenTo h (Node btn) (Scale 94 100)
  | ButtonUp btn => tweenTo h (Node btn) (Scale 106 100)
  end.

(** *** Reading a trace *)

#[global] Instance Method_eq_dec : EqDecision Method.
Proof. solve_decision. Defined.

(** How many times a method of [App] was entered. *)
Fixpoint callCount (m : Method) (t : list Event) : nat :=
  match t with
  | [] => 0
  | Enter m' :: t' => (if decide (m = m') then 1 else 0) + callCount m t'
  | _ :: t' => callCount m t'
  end.

(** The reports received by the error handler, in order. *)
Fixpoint reportsOf (t : list Event) : list (exn * string) :=
  match t with
  | [] => []
  | Reported e phase :: t' => (e, phase) :: reportsOf t'
  | _ :: t' => reportsOf t'
  end.

(** The exceptions reported under one phase tag, in order. *)
Fixpoint reportsWithPhase (phase : string) (t : list Event) : list exn :=
  match t with
  | [] => []
  | Reported e p :: t' =>
      if decide (p = phase)
      then e :: reportsWithPhase phase t'
      else reportsWithPhase phase t'
  | _ :: t' => reportsWithPhase phase t'
  end.

(** The calls of the core sequence. *)
Definition isCoreCall (ev : Event) : bool :=
  match ev with
  | Called RuntimeGetState => true
  | Called GetAllProducts => true
  | Called (RenderAllProducts _) => true
  | _ => false
  end.

(** Everything but a report and the entry of one of the four steps
    [init] chooses between. *)
Definition isMinor (ev : Event) : bool :=
  match ev with
  | Reported _ _ => false
  | Enter InitializeAnimations => false
  | Enter InitializeWebGL => false
  | Enter InitializeScroll => false
  | Enter ShowFallbackUI => false
  | _ => true
  end.

(** A call of [gsap.to]. *)
Definition isTween (ev : Event) : bool :=
  match ev with
  | Called (GsapTo _ _) => true
  | _ => false
  end.

(** Not a timeline hook, or the intro-completion closure hooked on
    [onComplete]. *)
Definition isIntroHook (ev : Event) : bool :=
  match ev with
  | Called (TimelineEventCallback name IntroComplete) =>
      String.eqb name "onComplete"
  | Called (TimelineEventCallback _ _) => false
  | _ => true
  end.

(** What an activation may emit inside its [try] block. *)
Definition isBackground (ev : Event) : bool :=
  isMinor ev && negb (isCoreCall ev) && negb (isTween ev) && isIntroHook ev.

Definition minor (ev : Event) : Prop := isMinor ev = true.
Definition background (ev : Event) : Prop := isBackground ev = true.

(** Setting up the pointer-driven tilt: entering
    [setupMouseInteractions] or registering one of its two
    listeners. *)
Definition isTiltSetup (ev : Event) : bool :=
  match ev with
  | Enter SetupMouseInteractions => true
  | Called (AddEventListener _ _ (MouseMoveTilt _)) => true
  | Called (AddEventListener _ _ (MouseLeaveReset _)) => true
  | _ => false
  end.

Definition noTilt (ev : Event) : Prop := isTiltSetup ev = false.

(** Starting the endless floating tween. *)
Definition isFloatStart (ev : Event) : bool :=
  match ev with
  | Called (GsapTo _ FloatLoop) => true
  | _ => false
  end.

(** Any call into the animation library, any listener registration,
    any of the set-up methods. *)
Definition isAnimationSetup (ev : Event) : bool :=
  match ev with
  | Called GsapTimeline => true
  | Called (TimelineFrom _) => true
  | Called (TimelineEventCallback _ _) => true
  | Called (GsapTo _ _) => true
  | Called (AddEventListener _ _ _) => true
  | Enter LoadGSAPAnimations => true
  | Enter SetupMouseInteractions => true
  | Enter SetupButtonInteractions => true
  | _ => false
  end.

(** The two activation sites of [init], with the gate that guards
    each, the method entered, the [try] block and the phase tag of its
    [catch]. *)
Inductive Site := AnimationSite | WebGLSite.

Definition siteGate (s : Site) : string :=
  match s with
  | AnimationSite => "allowAnimations"
  | WebGLSite => "allowWebGL"
  end.

Definition siteMethod (s : Site) : Method :=
  match s with
  | AnimationSite => InitializeAnimations
  | WebGLSite => InitializeWebGL
  end.

Definition sitePhase (s : Site) : string :=
  match s with
  | AnimationSite => "animations"
  | WebGLSite => "webgl"
  end.

Definition siteBody (s : Site) (h : Host) : Run unit :=
  match s with
  | AnimationSite => animationsBody h
  | WebGLSite => webglBody h
  end.

Definition activate (s : Site) (h : Host) : Run unit :=
  match s with
  | AnimationSite => initializeAnimations h
  | WebGLSite => initializeWebGL h
  end.

(** What the [catch] of an activation adds to the trace, given how
    its [try] block ended. *)
Definition caught (s : Site) (r : Outcome unit) : list Event :=
  match r with
  | Throw e => [Reported e (sitePhase s)]
  | _ => []
  end.

(** What an activation site of [init] adds to the trace under the
    capability state [st]. *)
Definition gated (st : Runtime.CapabilityState) (s : Site) (h : Host)
  (w : World) : list Event :=
  if Runtime.gate st (siteGate s) then trace (activate s h w) else [].

(** The world once [this.initialized = true] has run. *)
Definition markInitialized (w : World) : World :=
  {| app := {| initialized := true |}; documentBody := documentBody w |}.

(** The world once the fallback panel has replaced the page. *)
Definition showFallback (w : World) : World :=
  {| app := app w; documentBody := FallbackPanel |}.

(** Does the document become ready, at once or by the event? *)
Definition domReady (h : Host) : bool :=
  match readyState h with
  | Loading => domContentLoadedFires h
  | _ => true
  end.

(** A run whose core sequence goes through: the document becomes
    ready, the capability state [st] is read, the products [ps] are
    loaded and rendering reports success in [r]. *)
Definition coreSucceeds (h : Host) (st : Runtime.CapabilityState)
  (ps : list Product) (r : RenderResult) : Prop :=
  domReady h = true /\
  runtimeGetState h = Returns st /\
  getAllProducts h = Returns ps /\
  renderAllProducts h ps = Returns r /\
  success r = true.

(** An exception of the core sequence, by the step that raises it:
    reading the capability state, loading the product data, the
    renderer raising, or the renderer reporting overall failure, which
    [init] turns into [new Error(renderResult.error)].  Waiting for
    the document raises nothing. *)
Inductive coreRaises (h : Host) : exn -> Prop :=
| raises_getState e :
    domReady h = true ->
    runtimeGetState h = Raises e ->
    coreRaises h e
| raises_getAllProducts st e :
    domReady h = true ->
    runtimeGetState h = Returns st ->
    getAllProducts h = Raises e ->
    coreRaises h e
| raises_render st ps e :
    domReady h = true ->
    runtimeGetState h = Returns st ->
    getAllProducts h = Returns ps ->
    renderAllProducts h ps = Raises e ->
    coreRaises h e
| raises_renderFailure st ps r :
    domReady h = true ->
    runtimeGetState h = Returns st ->
    getAllProducts h = Returns ps ->
    renderAllProducts h ps = Returns r ->
    success r = false ->
    coreRaises h (Error (error r)).

(** The gating of [init] read as holding of every run: whatever state
    the runtime returns, each activation is entered exactly when its
    gate is true, and the scroll set-up is entered. *)
Definition gating_in_every_run (h : Host) (w : World) : Prop :=
  forall st,
    runtimeGetState h = Returns st ->
    (callCount InitializeAnimations (trace (init h w)) <> 0%nat <->
     Runtime.gate st "allowAnimations" = true) /\
    (callCount InitializeWebGL (trace (init h w)) <> 0%nat <->
     Runtime.gate st "allowWebGL" = true) /\
    callCount InitializeScroll (trace (init h w)) <> 0%nat.

(** The [runtime] collaborator as the capability detector provides
    it: neither call raises. *)
Definition withRuntime (c : Runtime.Controller) (h : Host) : Host :=
  {| readyState := readyState h;
     domContentLoadedFires := domContentLoadedFires h;
     runtimeGetState := Returns (Runtime.getState c).1;
     runtimeIsAllowed := fun name => Returns (Runtime.isAllowed c name);
     getAllProducts := getAllProducts h;
     renderAllProducts := renderAllProducts h;
     windowGsap := windowGsap h;
     windowTHREE := windowTHREE h;
     windowInnerWidth := windowInnerWidth h;
     querySelectorAll := querySelectorAll h |}.

(** *** More ways to read a trace *)

(** How many events of a trace satisfy [p]. *)
Definition countIf (p : Event -> bool) (t : list Event) : nat :=
  length (List.filter p t).

Definition isListener (ev : Event) : bool :=
  match ev with
  | Called (AddEventListener _ _ _) => true
  | _ => false
  end.

Definition isGetState (ev : Event) : bool :=
  match ev with
  | Called RuntimeGetState => true
  | _ => false
  end.

Definition isGetAllProducts (ev : Event) : bool :=
  match ev with
  | Called GetAllProducts => true
  | _ => false
  end.

Definition isRender (ev : Event) : bool :=
  match ev with
  | Called (RenderAllProducts _) => true
  | _ => false
  end.

(** A call of [runtime.isAllowed]. *)
Definition isRuntimeQuery (ev : Event) : bool :=
  match ev with
  | Called (RuntimeIsAllowed _) => true
  | _ => false
  end.

(** Entering [loadGSAPAnimations] and building the intro timeline. *)
Definition isTimelineStep (ev : Event) : bool :=
  match ev with
  | Enter LoadGSAPAnimations => true
  | Called GsapTimeline => true
  | Called (TimelineFrom _) => true
  | Called (TimelineEventCallback _ _) => true
  | _ => false
  end.

(** The message an activation logs when its library is there and the
    activation went through, and the warning it logs when the library
    is not there. *)
Definition isAvailableLog (s : Site) (ev : Event) : bool :=
  match s, ev with
  | AnimationSite, Console Log MsgAnimationsEnabled => true
  | WebGLSite, Console Log MsgWebGLAvailable => true
  | _, _ => false
  end.

Definition isMissingWarn (s : Site) (ev : Event) : bool :=
  match s, ev with
  | AnimationSite, Console Warn MsgGsapMissing => true
  | WebGLSite, Console Warn MsgThreeMissing => true
  | _, _ => false
  end.

(** What [typeof window.gsap !== 'undefined'] (for WebGL,
    [window.THREE]) finds. *)
Definition libraryPresent (s : Site) (h : Host) : Completion bool :=
  match s with
  | AnimationSite =>
      match windowGsap h with
      | Returns g => Returns (bool_decide (is_Some g))
      | Raises e => Raises e
      end
  | WebGLSite =>
      match windowTHREE h with
      | Returns t => Returns (bool_decide (is_Some t))
      | Raises e => Raises e
      end
  end.

(** The events of a complete intro timeline, of the tilt set-up and
    of the button set-up, as the methods emit them. *)
Definition introTrace : list Event :=
  [Enter LoadGSAPAnimations;
   Called GsapTimeline;
   Called (TimelineFrom ".product-section");
   Called (TimelineFrom ".info h2");
   Called (TimelineFrom ".info p, .mini-label, .specs-row, .buy-btn");
   Called (TimelineFrom ".main-img");
   Called (TimelineEventCallback "onComplete" IntroComplete)].

Definition mouseTrace (h : Host) : list Event :=
  [Enter SetupMouseInteractions;
   Called (AddEventListener Document "mousemove"
             (MouseMoveTilt (querySelectorAll h ".main-img")));
   Called (AddEventListener Document "mouseleave"
             (MouseLeaveReset (querySelectorAll h ".main-img")))].

Definition buttonListeners (btn : Element) : list Event :=
  [Called (AddEventListener (Node btn) "mouseenter" (ButtonEnter btn));
   Called (AddEventListener (Node btn) "mouseleave" (ButtonLeave btn));
   Called (AddEventListener (Node btn) "mousedown" (ButtonDown btn));
   Called (AddEventListener (Node btn) "mouseup" (ButtonUp btn))].

Definition buttonTrace (h : Host) : list Event :=
  Enter SetupButtonInteractions
    :: flat_map buttonListeners (querySelectorAll h ".buy-btn, .cart-btn").

(** The value of
    [window.innerWidth > 1024 && this.runtime.isAllowed('allowHeavy')]
    and the call it makes: the runtime is asked only on a wide
    viewport. *)
Definition heavyDecision (h : Host) : Completion bool :=
  if (1024 <? windowInnerWidth h)%Z
  then runtimeIsAllowed h "allowHeavy"
  else Returns false.

Definition queryTrace (h : Host) : list Event :=
  if (1024 <? windowInnerWidth h)%Z
  then [Called (RuntimeIsAllowed "allowHeavy")]
  else [].

(** Registering the promise's [resolve] for [DOMContentLoaded]. *)
Definition isDomHook (ev : Event) : bool :=
  match ev with
  | Called (AddEventListener _ _ PromiseResolve) => true
  | _ => false
  end.

(** The listener [waitForDOM] registers, if the document is still
    loading. *)
Definition domHook (h : Host) : list Event :=
  match readyState h with
  | Loading =>
      [Called (AddEventListener Document "DOMContentLoaded" PromiseResolve)]
  | _ => []
  end.


(** An event that is a call out or the entry of a method. *)
Definition isPlain (ev : Event) : bool :=
  match ev with
  | Called _ => true
  | Enter _ => true
  | _ => false
  end.

Definition plain (ev : Event) : Prop := isPlain ev = true.

(** The host with another [runtime.isAllowed]. *)
Definition withIsAllowed (f : string -> Completion bool) (h : Host) : Host :=
  {| readyState := readyState h;
     domContentLoadedFires := domContentLoadedFires h;
     runtimeGetState := runtimeGetState h;
     runtimeIsAllowed := f;
     getAllProducts := getAllProducts h;
     renderAllProducts := renderAllProducts h;
     windowGsap := windowGsap h;
     windowTHREE := windowTHREE h;
     windowInnerWidth := windowInnerWidth h;
     querySelectorAll := querySelectorAll h |}.

(** One [gsap.to] per node, in order. *)
Definition tweenAll (nodes : list Element) (tw : Tween) : list Event :=
  map (fun n => Called (GsapTo (Node n) tw)) nodes.

(** *** The steps of [init] after rendering *)

(** The steps between the message that the products are rendered and
    the assignment of the flag. *)
Definition gatedSteps (animations webgl scroll : Run unit)
  (runtimeState : Runtime.CapabilityState) : Run unit :=
  when (Runtime.gate runtimeState "allowAnimations") animations;;
  when (Runtime.gate runtimeState "allowWebGL") webgl;;
  scroll.

End Main.


(* ===================================================================== *)
(** ** Concrete devices and hosts *)
(* ===================================================================== *)

Module Scenario.
Import Js Main.
Local Open Scope string_scope.

(** One tuning of the detector: up to 30 points each for memory,
    cores and network, none for the viewport; animations from 40
    points, the heavy tier from 70. *)
Definition tuning : Runtime.Tuning :=
  {| Runtime.memoryPoints := fun m =>
       if Qle_bool 8 m then 30 else if Qle_bool 4 m then 20 else 10;
     Runtime.corePoints := fun c =>
       if (8 <=? c)%N then 30 else if (4 <=? c)%N then 20 else 10;
     Runtime.networkPoints := fun n =>
       if String.eqb n "4g" then 30 else if String.eqb n "3g" then 15 else 0;
     Runtime.viewportPoints := fun _ => 0;
     Runtime.lowCut := 40;
     Runtime.highCut := 70;
     Runtime.inclusive := true;
     Runtime.reducedMotionScore := 0;
     Runtime.defaultMemory := 4;
     Runtime.defaultCores := 4%N;
     Runtime.defaultNetwork := "4g";
     Runtime.defaultReducedMotion := false;
     Runtime.defaultViewport := 1024 |}.

Definition device (mem : Q) (cores : N) (net : string) (reduced : bool)
  : Runtime.HostSignals :=
  {| Runtime.deviceMemory := Some mem;
     Runtime.hardwareConcurrency := Some cores;
     Runtime.effectiveType := Some net;
     Runtime.prefersReducedMotion := Some reduced;
     Runtime.innerWidth := Some 1440 |}.

Definition strongDevice := device 8 8 "4g" false.
Definition weakDevice := device 1 2 "2g" false.
Definition strongReducedDevice := device 8 8 "4g" true.

(** A host that exposes none of the signal APIs. *)
Definition bareDevice : Runtime.HostSignals :=
  {| Runtime.deviceMemory := None;
     Runtime.hardwareConcurrency := None;
     Runtime.effectiveType := None;
     Runtime.prefersReducedMotion := None;
     Runtime.innerWidth := None |}.

Definition strongRuntime : Runtime.Controller := Runtime.load tuning strongDevice.
Definition weakRuntime : Runtime.Controller := Runtime.load tuning weakDevice.

(** The five colour variants. *)
Definition catalogue : list Product :=
  [product 0; product 1; product 2; product 3; product 4].

Definition renderOk (ps : list Product) : Completion RenderResult :=
  Returns {| success := true;
             successful := N.of_nat (length ps);
             total := N.of_nat (length ps);
             error := None |}.

Definition renderKo (ps : list Product) : Completion RenderResult :=
  Returns {| success := false;
             successful := 0;
             total := N.of_nat (length ps);
             error := Some "Failed to render products" |}.

Definition steadyGsap : Gsap :=
  {| gsapTimeline := Returns tt;
     timelineFrom := fun _ => Returns tt;
     timelineEventCallback := fun _ => Returns tt;
     gsapTo := fun _ _ => Returns tt |}.

(** A library whose timeline rejects one of the intro steps. *)
Definition brokenGsap : Gsap :=
  {| gsapTimeline := Returns tt;
     timelineFrom := fun css =>
       if String.eqb css ".main-img"
       then Raises (Thrown "GSAP target not found")
       else Returns tt;
     timelineEventCallback := fun _ => Returns tt;
     gsapTo := fun _ _ => Returns tt |}.

Definition page (css : string) : list Element :=
  if String.eqb css ".main-img" then [element 0; element 1]
  else if String.eqb css ".buy-btn, .cart-btn" then [element 10; element 11]
  else [].

Definition browser (c : Runtime.Controller)
  (render : list Product -> Completion RenderResult)
  (lib : Completion (option Gsap)) (three : Completion (option unit))
  (width : Z) : Host :=
  withRuntime c
    {| readyState := Loading;
       domContentLoadedFires := true;
       runtimeGetState := Raises (Thrown "unset");
       runtimeIsAllowed := fun _ => Raises (Thrown "unset");
       getAllProducts := Returns catalogue;
       renderAllProducts := render;
       windowGsap := lib;
       windowTHREE := three;
       windowInnerWidth := width;
       querySelectorAll := page |}.

(** Everything works, on a wide screen and a strong device. *)
Definition healthy : Host :=
  browser strongRuntime renderOk (Returns (Some steadyGsap))
          (Returns (Some tt)) 1440.

(** Rendering reports overall failure. *)
Definition renderFails : Host :=
  browser strongRuntime renderKo (Returns (Some steadyGsap))
          (Returns (Some tt)) 1440.

(** The animation library raises while the intro timeline is built. *)
Definition gsapBreaks : Host :=
  browser strongRuntime renderOk (Returns (Some brokenGsap))
          (Returns (Some tt)) 1440.

(** The GSAP script was not loaded. *)
Definition gsapMissing : Host :=
  browser strongRuntime renderOk (Returns None) (Returns (Some tt)) 1440.

(** Reading [window.THREE] raises. *)
Definition threeBreaks : Host :=
  browser strongRuntime renderOk (Returns (Some steadyGsap))
          (Raises (Thrown "THREE accessor failed")) 1440.

(** The capability detector itself raises. *)
Definition runtimeBreaks : Host :=
  {| readyState := Complete;
     domContentLoadedFires := false;
     runtimeGetState := Raises (Thrown "runtime unavailable");
     runtimeIsAllowed := fun _ => Raises (Thrown "runtime unavailable");
     getAllProducts := Returns catalogue;
     renderAllProducts := renderOk;
     windowGsap := Returns (Some steadyGsap);
     windowTHREE := Returns (Some tt);
     windowInnerWidth := 1440;
     querySelectorAll := page |}.

Definition click : PointerEvent := {| clientX := 0; clientY := 0 |}.

(** A phone: everything works, on a narrow viewport. *)
Definition phone : Host :=
  browser strongRuntime renderOk (Returns (Some steadyGsap))
          (Returns (Some tt)) 390.

(** A runtime whose [isAllowed] raises. *)
Definition raisingQuery (name : string) : Completion bool :=
  Raises (Thrown "runtime query failed").

(** A library that cannot tween one particular node. *)
Definition pickyGsap : Gsap :=
  {| gsapTimeline := Returns tt;
     timelineFrom := fun _ => Returns tt;
     timelineEventCallback := fun _ => Returns tt;
     gsapTo := fun target _ =>
       match target with
       | Node (element 1) => Raises (Thrown "GSAP cannot tween")
       | _ => Returns tt
       end |}.

Definition pickyHost : Host :=
  browser strongRuntime renderOk (Returns (Some pickyGsap))
          (Returns (Some tt)) 1440.

(** The healthy page after its content has been replaced: no selector
    matches any more. *)
Definition emptied : Host :=
  {| readyState := Complete;
     domContentLoadedFires := false;
     runtimeGetState := runtimeGetState healthy;
     runtimeIsAllowed := runtimeIsAllowed healthy;
     getAllProducts := getAllProducts healthy;
     renderAllProducts := renderAllProducts healthy;
     windowGsap := windowGsap healthy;
     windowTHREE := windowTHREE healthy;
     windowInnerWidth := windowInnerWidth healthy;
     querySelectorAll := fun _ => [] |}.

Definition pointer : PointerEvent := {| clientX := 720; clientY := 100 |}.

(** A scroll set-up that refuses to run on an [App] whose flag is
    already set. *)
Definition guardedScroll : Run unit :=
  fun w =>
    if initialized (app w)
    then (Throw (Thrown "already initialized"), w, [])
    else initializeScroll w.

End Scenario.


(* ===================================================================== *)
(** ** Properties of the capability detector *)
(* ===================================================================== *)

Module RuntimeFacts.
Import Runtime.
Local Open Scope string_scope.

(** *** The decisions record *)

Lemma lookup_allowAnimations a h w :
  mkDecisions a h w !! "allowAnimations" = Some a.
Proof. unfold mkDecisions. by rewrite lookup_insert_eq. Qed.

Lemma lookup_allowHeavy a h w :
  mkDecisions a h w !! "allowHeavy" = Some h.
Proof.
  unfold mkDecisions.
  rewrite lookup_insert_ne by done. by rewrite lookup_insert_eq.
Qed.

Lemma lookup_allowWebGL a h w :
  mkDecisions a h w !! "allowWebGL" = Some w.
Proof.
  unfold mkDecisions.
  do 2 (rewrite lookup_insert_ne by done). by rewrite lookup_insert_eq.
Qed.

Lemma dom_mkDecisions a h w :
  dom (mkDecisions a h w) = list_to_set gateNames.
Proof.
  unfold mkDecisions, gateNames. rewrite !dom_insert_L, dom_empty_L.
  simpl. set_solver.
Qed.

Lemma lookup_unrecognized a h w name :
  name ∉ gateNames -> mkDecisions a h w !! name = None.
Proof.
  intros Hname. apply not_elem_of_dom. rewrite dom_mkDecisions.
  by rewrite elem_of_list_to_set.
Qed.

Lemma decisions_computeState t s :
  exists a h w, decisions (computeState t s) = mkDecisions a h w.
Proof. unfold computeState. destruct (reducedMotion s); simpl; eauto. Qed.

(** Every snapshot the detector computes has exactly the three gates. *)
Lemma dom_computeState t s :
  dom (decisions (computeState t s)) = list_to_set gateNames.
Proof.
  destruct (decisions_computeState t s) as (a & h & w & ->).
  apply dom_mkDecisions.
Qed.

Lemma gate_mkDecisions st a h w :
  decisions st = mkDecisions a h w ->
  gate st "allowAnimations" = a /\
  gate st "allowHeavy" = h /\
  gate st "allowWebGL" = w.
Proof.
  intros E. unfold gate. rewrite E.
  by rewrite lookup_allowAnimations, lookup_allowHeavy, lookup_allowWebGL.
Qed.

(** *** Scoring *)

Lemma computeState_reduced t s :
  reducedMotion s = true ->
  computeState t s =
    {| score := reducedMotionScore t;
       decisions := mkDecisions false false false;
       signals := s |}.
Proof. intros E. unfold computeState. by rewrite E. Qed.

Lemma computeState_scored t s :
  reducedMotion s = false ->
  computeState t s =
    {| score := sumPoints t s;
       decisions :=
         mkDecisions (passes t (lowCut t) (sumPoints t s))
                     (passes t (highCut t) (sumPoints t s))
                     (passes t (highCut t) (sumPoints t s));
       signals := s |}.
Proof. intros E. unfold computeState. by rewrite E. Qed.

(** A score that passes a cut point passes every lower one, and so
    does every higher score. *)
Lemma passes_mono t cut cut' sc sc' :
  cut' <= cut -> sc <= sc' ->
  passes t cut sc = true -> passes t cut' sc' = true.
Proof.
  unfold passes. intros Hcut Hsc.
  destruct (inclusive t).
  - rewrite !Z.leb_le. lia.
  - rewrite !Z.ltb_lt. lia.
Qed.

Lemma readSignals_reduced t h :
  prefersReducedMotion h = Some true ->
  reducedMotion (readSignals t h) = true.
Proof. intros E. unfold readSignals. simpl. by rewrite E. Qed.

(** *** The claims *)

(** C1. Whenever the reduced-motion preference is requested, the
    computed state has [allowAnimations], [allowHeavy] and
    [allowWebGL] all false, whatever the memory, the core count, the
    network class and the viewport width are, and whatever weights and
    cut points are in force; the check comes first and ends the
    scoring: the score is the fixed reduced-motion score and no weight
    enters it.  This holds for the raw signals and for any host that
    reports the preference. *)
Theorem reduced_motion_closes_every_gate t s :
  reducedMotion s = true ->
  let st := computeState t s in
  decisions st !! "allowAnimations" = Some false /\
  decisions st !! "allowHeavy" = Some false /\
  decisions st !! "allowWebGL" = Some false /\
  (forall name, gate st name = false) /\
  score st = reducedMotionScore t /\
  (forall t' s',
      reducedMotion s' = true ->
      reducedMotionScore t' = reducedMotionScore t ->
      score (computeState t' s') = score st /\
      decisions (computeState t' s') = decisions st) /\
  (forall h,
      prefersReducedMotion h = Some true ->
      decisions (state (load t h)) = decisions st).
Proof.
  intros Hred st. subst st. rewrite (computeState_reduced t s Hred). simpl.
  split; [apply lookup_allowAnimations|].
  split; [apply lookup_allowHeavy|].
  split; [apply lookup_allowWebGL|].
  split.
  { intros name. unfold gate. simpl.
    destruct (mkDecisions false false false !! name) as [b|] eqn:E; [|done].
    simpl. unfold mkDecisions in E.
    repeat (apply lookup_insert_Some in E as [[_ <-]|[_ E]]; [done|]).
    by rewrite lookup_empty in E. }
  split; [done|].
  split.
  - intros t' s' Hred' Hsc. rewrite (computeState_reduced t' s' Hred'). by simpl.
  - intros h Hh. unfold load. simpl.
    by rewrite (computeState_reduced t _ (readSignals_reduced t h Hh)).
Qed.

(** C6. A gate name that is not among the gates of the current
    state's decisions record is disallowed: [isAllowed] returns
    [false].  [isAllowed] is a total function, so there is no
    exception to speak of. *)
Theorem isAllowed_unknown_gate (c : Controller) (gateName : string) :
  gateName ∉ dom (decisions (state c)) ->
  isAllowed c gateName = false.
Proof.
  intros Hname. unfold isAllowed.
  apply not_elem_of_dom in Hname. by rewrite Hname.
Qed.

(** For the controller the module builds at load time, the recognized
    gates are the three named ones. *)
Lemma isAllowed_loaded_unknown t h (gateName : string) :
  gateName ∉ gateNames ->
  isAllowed (load t h) gateName = false.
Proof.
  intros Hname. unfold isAllowed, load. simpl.
  destruct (decisions_computeState t (readSignals t h)) as (a & b & w & ->).
  by rewrite lookup_unrecognized.
Qed.

(** C7. Two successive calls of [getState] in one process return
    snapshots with the same score and the same decisions (indeed the
    same snapshot, and the controller is left as it was); for the
    controller loaded under host signals [h] that snapshot is the one
    computed from [h]. *)
Theorem getState_twice_same_snapshot (c : Controller) :
  let '(s1, c1) := getState c in
  let '(s2, c2) := getState c1 in
  score s1 = score s2 /\
  decisions s1 = decisions s2 /\
  s1 = s2 /\
  c2 = c /\
  (forall t h, c = load t h -> s2 = computeState t (readSignals t h)).
Proof.
  unfold getState. repeat split.
  intros t h ->. reflexivity.
Qed.

(** C8. Without reduced motion, the gates are the summed score
    compared with two cut points, [allowAnimations] with the lower
    one and [allowHeavy] and [allowWebGL] with the higher one; hence
    [allowHeavy] or [allowWebGL] implies [allowAnimations], and a
    gate that is open stays open for every higher score. *)
Theorem gates_threshold_the_score t s :
  well_tuned t ->
  reducedMotion s = false ->
  let st := computeState t s in
  score st = sumPoints t s /\
  gate st "allowAnimations" = passes t (lowCut t) (score st) /\
  gate st "allowHeavy" = passes t (highCut t) (score st) /\
  gate st "allowWebGL" = passes t (highCut t) (score st) /\
  (gate st "allowHeavy" = true \/ gate st "allowWebGL" = true ->
   gate st "allowAnimations" = true) /\
  (forall s' name,
      reducedMotion s' = false ->
      score st <= score (computeState t s') ->
      gate st name = true ->
      gate (computeState t s') name = true).
Proof.
  intros Htuned Hs st. subst st.
  rewrite (computeState_scored t s Hs).
  set (sc := sumPoints t s).
  destruct (gate_mkDecisions
              {| score := sc;
                 decisions := mkDecisions (passes t (lowCut t) sc)
                                          (passes t (highCut t) sc)
                                          (passes t (highCut t) sc);
                 signals := s |} _ _ _ eq_refl) as (Ha & Hh & Hw).
  simpl score.
  split; [done|]. split; [done|]. split; [done|]. split; [done|].
  split.
  - rewrite Ha, Hh, Hw. intros Hhigh.
    assert (passes t (highCut t) sc = true) as Hp by (by destruct Hhigh).
    eapply passes_mono; [apply Htuned| |apply Hp]. lia.
  - intros s' name Hs' Hle.
    rewrite (computeState_scored t s' Hs') in Hle |- *.
    change (sc <= sumPoints t s') in Hle.
    set (sc' := sumPoints t s') in *.
    unfold gate. cbn [decisions]. unfold mkDecisions.
    destruct (decide (name = "allowAnimations")) as [->|N1].
    { rewrite !lookup_insert_eq. cbn [default]. intros Hp.
      eapply passes_mono; [| |exact Hp]; lia. }
    rewrite !(lookup_insert_ne _ "allowAnimations") by done.
    destruct (decide (name = "allowHeavy")) as [->|N2].
    { rewrite !lookup_insert_eq. cbn [default]. intros Hp.
      eapply passes_mono; [| |exact Hp]; lia. }
    rewrite !(lookup_insert_ne _ "allowHeavy") by done.
    destruct (decide (name = "allowWebGL")) as [->|N3].
    { rewrite !lookup_insert_eq. cbn [default]. intros Hp.
      eapply passes_mono; [| |exact Hp]; lia. }
    rewrite !(lookup_insert_ne _ "allowWebGL") by done.
    by rewrite lookup_empty.
Qed.

End RuntimeFacts.


(* ===================================================================== *)
(** ** Reasoning about runs *)
(* ===================================================================== *)

Module JsFacts.
Import Js.

Section Runs.
Context {St Ev : Type}.
Implicit Types (s : St) (t : list Ev).
Local Abbreviation sync := (@Js.sync St Ev _) (only parsing).
Local Abbreviation quiet := (@Js.quiet St Ev) (only parsing).

(** *** How [bind] and [try_catch] run *)

Lemma bind_normal {A B} (m : M St Ev A) (k : A -> M St Ev B) s a :
  outcome (m s) = Normal a ->
  bind m k s =
    (outcome (k a (final (m s))), final (k a (final (m s))),
     trace (m s) ++ trace (k a (final (m s)))).
Proof.
  unfold bind, outcome, final, trace.
  destruct (m s) as [[r s1] t1]; simpl. intros ->.
  by destruct (k a s1) as [[r2 s2] t2].
Qed.

Lemma bind_throw {A B} (m : M St Ev A) (k : A -> M St Ev B) s e :
  outcome (m s) = Throw e ->
  bind m k s = (Throw e, final (m s), trace (m s)).
Proof.
  unfold bind, outcome, final, trace.
  destruct (m s) as [[r s1] t1]; simpl. by intros ->.
Qed.

Lemma bind_suspended {A B} (m : M St Ev A) (k : A -> M St Ev B) s :
  outcome (m s) = Suspended ->
  bind m k s = (Suspended, final (m s), trace (m s)).
Proof.
  unfold bind, outcome, final, trace.
  destruct (m s) as [[r s1] t1]; simpl. by intros ->.
Qed.

Lemma try_catch_normal {A} (m : M St Ev A) (hd : exn -> M St Ev A) s a :
  outcome (m s) = Normal a -> try_catch m hd s = m s.
Proof.
  unfold try_catch, outcome.
  destruct (m s) as [[r s1] t1]; simpl. by intros ->.
Qed.

Lemma try_catch_suspended {A} (m : M St Ev A) (hd : exn -> M St Ev A) s :
  outcome (m s) = Suspended -> try_catch m hd s = m s.
Proof.
  unfold try_catch, outcome.
  destruct (m s) as [[r s1] t1]; simpl. by intros ->.
Qed.

Lemma try_catch_throw {A} (m : M St Ev A) (hd : exn -> M St Ev A) s e :
  outcome (m s) = Throw e ->
  try_catch m hd s =
    (outcome (hd e (final (m s))), final (hd e (final (m s))),
     trace (m s) ++ trace (hd e (final (m s)))).
Proof.
  unfold try_catch, outcome, final, trace.
  destruct (m s) as [[r s1] t1]; simpl. intros ->.
  by destruct (hd e s1) as [[r2 s2] t2].
Qed.

(** [bind] and [try_catch] look at their first argument only at the
    state they are run from. *)
Lemma bind_ext {A B} (m m' : M St Ev A) (k k' : A -> M St Ev B) s :
  m s = m' s -> (forall a s', k a s' = k' a s') -> bind m k s = bind m' k' s.
Proof.
  intros Hm Hk. unfold bind. rewrite Hm.
  destruct (m' s) as [[[a| |] s1] t1]; [|done|done]. by rewrite Hk.
Qed.

Lemma try_catch_ext {A} (m m' : M St Ev A) (hd : exn -> M St Ev A) s :
  m s = m' s -> try_catch m hd s = try_catch m' hd s.
Proof. intros Hm. unfold try_catch. by rewrite Hm. Qed.

Lemma bind_assoc {A B C} (m : M St Ev A) (k : A -> M St Ev B)
      (k' : B -> M St Ev C) s :
  bind (bind m k) k' s = bind m (fun a => bind (k a) k') s.
Proof.
  unfold bind.
  destruct (m s) as [[[a| |] s1] t1]; [|done|done].
  destruct (k a s1) as [[[b| |] s2] t2]; [|done|done].
  destruct (k' b s2) as [[r3 s3] t3]. by rewrite app_assoc.
Qed.

Lemma bind_ret {A} (m : M St Ev A) s : bind m ret s = m s.
Proof.
  unfold bind, ret.
  destruct (m s) as [[[a| |] s1] t1]; [|done|done]. by rewrite app_nil_r.
Qed.

(** *** Computations that never park on an [await] *)

Lemma sync_ret {A} (a : A) : sync (ret a).
Proof. by intros s. Qed.

Lemma sync_emit ev : sync (emit ev).
Proof. by intros s. Qed.

Lemma sync_modify f : sync (modify f).
Proof. by intros s. Qed.

Lemma sync_throw {A} e : sync (@throw St Ev A e).
Proof. by intros s. Qed.

Lemma sync_lift {A} (c : Completion A) : sync (lift c).
Proof. destruct c; [apply sync_ret | apply sync_throw]. Qed.

Lemma sync_bind {A B} (m : M St Ev A) (k : A -> M St Ev B) :
  sync m -> (forall a, sync (k a)) -> sync (bind m k).
Proof.
  intros Hm Hk s. destruct (outcome (m s)) as [a|e|] eqn:E.
  - rewrite (bind_normal _ _ _ _ E). apply Hk.
  - by rewrite (bind_throw _ _ _ _ E).
  - by destruct (Hm s).
Qed.

Lemma sync_when c (m : M St Ev unit) : sync m -> sync (when c m).
Proof. destruct c; [done | intros _; apply sync_ret]. Qed.

Lemma sync_forEach {A} (xs : list A) (f : A -> M St Ev unit) :
  (forall x, sync (f x)) -> sync (forEach xs f).
Proof.
  intros Hf. induction xs as [|x xs IH]; simpl.
  - apply sync_ret.
  - apply sync_bind; [apply Hf | intros _; apply IH].
Qed.

Lemma sync_try_catch {A} (m : M St Ev A) (hd : exn -> M St Ev A) :
  sync m -> (forall e, sync (hd e)) -> sync (try_catch m hd).
Proof.
  intros Hm Hh s. destruct (outcome (m s)) as [a|e|] eqn:E.
  - rewrite (try_catch_normal _ _ _ _ E). by rewrite E.
  - rewrite (try_catch_throw _ _ _ _ E). apply Hh.
  - by destruct (Hm s).
Qed.

(** *** Computations that leave the state alone and emit only events
    of one kind *)

Lemma quiet_ret P {A} (a : A) : quiet P (ret a).
Proof. intros s. split; [done | constructor]. Qed.

Lemma quiet_emit (P : Ev -> Prop) ev : P ev -> quiet P (emit ev).
Proof. intros Hev s. split; [done | by repeat constructor]. Qed.

Lemma quiet_throw P {A} e : quiet P (@throw St Ev A e).
Proof. intros s. split; [done | constructor]. Qed.

Lemma quiet_suspend P {A} : quiet P (@suspend St Ev A).
Proof. intros s. split; [done | constructor]. Qed.

Lemma quiet_lift P {A} (c : Completion A) : quiet P (lift c).
Proof. destruct c; [apply quiet_ret | apply quiet_throw]. Qed.

Lemma quiet_await P p : quiet P (await p).
Proof. destruct p; [apply quiet_ret | apply quiet_suspend]. Qed.

Lemma quiet_bind P {A B} (m : M St Ev A) (k : A -> M St Ev B) :
  quiet P m -> (forall a, quiet P (k a)) -> quiet P (bind m k).
Proof.
  intros Hm Hk s. destruct (Hm s) as [Hs Ht].
  destruct (outcome (m s)) as [a|e|] eqn:E.
  - rewrite (bind_normal _ _ _ _ E), Hs.
    destruct (Hk a s) as [Hs' Ht'].
    split; [exact Hs' | apply Forall_app; by split].
  - by rewrite (bind_throw _ _ _ _ E).
  - by rewrite (bind_suspended _ _ _ E).
Qed.

Lemma quiet_when P c (m : M St Ev unit) : quiet P m -> quiet P (when c m).
Proof. destruct c; [done | intros _; apply quiet_ret]. Qed.

Lemma quiet_forEach P {A} (xs : list A) (f : A -> M St Ev unit) :
  (forall x, quiet P (f x)) -> quiet P (forEach xs f).
Proof.
  intros Hf. induction xs as [|x xs IH]; simpl.
  - apply quiet_ret.
  - apply quiet_bind; [apply Hf | intros _; apply IH].
Qed.

Lemma quiet_try_catch P {A} (m : M St Ev A) (hd : exn -> M St Ev A) :
  quiet P m -> (forall e, quiet P (hd e)) -> quiet P (try_catch m hd).
Proof.
  intros Hm Hh s. destruct (Hm s) as [Hs Ht].
  destruct (outcome (m s)) as [a|e|] eqn:E.
  - by rewrite (try_catch_normal _ _ _ _ E).
  - rewrite (try_catch_throw _ _ _ _ E), Hs.
    destruct (Hh e s) as [Hs' Ht'].
    split; [exact Hs' | apply Forall_app; by split].
  - by rewrite (try_catch_suspended _ _ _ E).
Qed.

(** The continuation only matters for the values the first part can
    return. *)
Lemma quiet_bind_val P {A B} (m : M St Ev A) (k : A -> M St Ev B) :
  quiet P m ->
  (forall a, (exists s, outcome (m s) = Normal a) -> quiet P (k a)) ->
  quiet P (bind m k).
Proof.
  intros Hm Hk s. destruct (Hm s) as [Hs Ht].
  destruct (outcome (m s)) as [a|e|] eqn:E.
  - rewrite (bind_normal _ _ _ _ E), Hs.
    destruct (Hk a (ex_intro _ s E) s) as [Hs' Ht'].
    split; [exact Hs' | apply Forall_app; by split].
  - by rewrite (bind_throw _ _ _ _ E).
  - by rewrite (bind_suspended _ _ _ E).
Qed.

Lemma quiet_weaken (P Q : Ev -> Prop) {A} (m : M St Ev A) :
  (forall ev, P ev -> Q ev) -> quiet P m -> quiet Q m.
Proof.
  intros HPQ Hm s. destruct (Hm s) as [Hs Ht].
  split; [done | by eapply Forall_impl].
Qed.

End Runs.

Create HintDb runs.
#[export] Hint Resolve sync_ret sync_emit sync_modify sync_throw sync_lift
  sync_when sync_forEach : runs.
#[export] Hint Resolve quiet_ret quiet_throw quiet_suspend quiet_lift
  quiet_await quiet_when quiet_forEach : runs.

(** Peel a computation apart along its [bind]s, branching where it
    branches. *)
Ltac step_run :=
  match goal with
  | |- sync (bind _ _) => apply sync_bind; [|intros ?]
  | |- quiet _ (bind _ _) => apply quiet_bind; [|intros ?]
  | |- sync (try_catch _ _) => apply sync_try_catch; [|intros ?]
  | |- quiet _ (try_catch _ _) => apply quiet_try_catch; [|intros ?]
  | |- quiet _ (emit _) => apply quiet_emit; done
  | |- sync (match ?x with _ => _ end) => destruct x
  | |- quiet _ (match ?x with _ => _ end) => destruct x
  | |- sync (forEach _ _) => apply sync_forEach; intros ?
  | |- quiet _ (forEach _ _) => apply quiet_forEach; intros ?
  | |- sync (when _ _) => apply sync_when
  | |- quiet _ (when _ _) => apply quiet_when
  | |- _ => solve [eauto with runs]
  end.

End JsFacts.


(* ===================================================================== *)
(** ** Properties of the start-up sequence *)
(* ===================================================================== *)

Module MainFacts.
Import Js JsFacts Main.
Local Open Scope js_scope.
Local Open Scope string_scope.
Local Open Scope list_scope.

Implicit Types (h : Host) (w : World) (t : list Event) (site : Site).

(** *** Reading traces *)

Lemma callCount_app m t1 t2 :
  callCount m (t1 ++ t2) = (callCount m t1 + callCount m t2)%nat.
Proof.
  induction t1 as [|[| m' | |] t1 IH]; simpl; try done.
  rewrite IH. lia.
Qed.

Lemma reportsOf_app t1 t2 :
  reportsOf (t1 ++ t2) = reportsOf t1 ++ reportsOf t2.
Proof.
  induction t1 as [|[| | |] t1 IH]; simpl; try done.
  by rewrite IH.
Qed.

Lemma background_inv ev :
  background ev ->
  isMinor ev = true /\ isCoreCall ev = false /\
  isTween ev = false /\ isIntroHook ev = true.
Proof.
  unfold background, isBackground.
  destruct (isMinor ev), (isCoreCall ev), (isTween ev), (isIntroHook ev);
    by simpl.
Qed.

Lemma background_minor ev : background ev -> minor ev.
Proof. by intros (? & _)%background_inv. Qed.

Lemma minor_no_reports t : Forall minor t -> reportsOf t = [].
Proof.
  induction 1 as [|ev t Hev _ IH]; [done|].
  destruct ev; simpl; try done.
Qed.

Lemma minor_callCount m t :
  isMinor (Enter m) = false -> Forall minor t -> callCount m t = 0%nat.
Proof.
  intros Hm. induction 1 as [|ev t Hev _ IH]; [done|].
  destruct ev as [| m' | |]; simpl; try done.
  destruct (decide (m = m')) as [->|]; [|done].
  unfold minor in Hev. congruence.
Qed.

Lemma background_no_core_call t ev :
  Forall background t -> isCoreCall ev = true -> ev ∉ t.
Proof.
  intros Ht Hev Hin. rewrite Forall_forall in Ht.
  destruct (background_inv ev (Ht ev Hin)) as (_ & Hcore & _). congruence.
Qed.

(** *** The set-up methods *)

Lemma sync_gsap h : sync (gsap h).
Proof. unfold gsap. repeat step_run. Qed.

Lemma quiet_gsap P h : quiet P (gsap h).
Proof. unfold gsap. repeat step_run. Qed.

Lemma sync_call {A} c (r : Completion A) : sync (call c r).
Proof. unfold call. repeat step_run. Qed.

Lemma quiet_call {A} (P : Event -> Prop) c (r : Completion A) :
  P (Called c) -> quiet P (call c r).
Proof.
  intros Hc. unfold call. apply quiet_bind; [by apply quiet_emit|].
  intros _. apply quiet_lift.
Qed.

#[local] Hint Resolve sync_gsap quiet_gsap sync_call : runs.

Ltac step_main :=
  first [ apply quiet_call; done
        | step_run ].

Lemma sync_setupMouseInteractions h : sync (setupMouseInteractions h).
Proof. unfold setupMouseInteractions. repeat step_main. Qed.

Lemma quiet_setupMouseInteractions h :
  quiet background (setupMouseInteractions h).
Proof. unfold setupMouseInteractions. repeat step_main. Qed.

Lemma sync_setupButtonInteractions h : sync (setupButtonInteractions h).
Proof. unfold setupButtonInteractions. repeat step_main. Qed.

Lemma quiet_setupButtonInteractions h :
  quiet background (setupButtonInteractions h).
Proof. unfold setupButtonInteractions. repeat step_main. Qed.

#[local] Hint Resolve sync_setupMouseInteractions quiet_setupMouseInteractions
  sync_setupButtonInteractions quiet_setupButtonInteractions : runs.

Lemma sync_loadGSAPAnimations h : sync (loadGSAPAnimations h).
Proof. unfold loadGSAPAnimations. repeat step_main. Qed.

Lemma quiet_loadGSAPAnimations h : quiet background (loadGSAPAnimations h).
Proof. unfold loadGSAPAnimations. repeat step_main. Qed.

#[local] Hint Resolve sync_loadGSAPAnimations quiet_loadGSAPAnimations : runs.

Lemma sync_siteBody site h : sync (siteBody site h).
Proof.
  destruct site; simpl; [unfold animationsBody | unfold webglBody];
    unfold console; repeat step_main.
Qed.

Lemma quiet_siteBody site h : quiet background (siteBody site h).
Proof.
  destruct site; simpl; [unfold animationsBody | unfold webglBody];
    unfold console; repeat step_main.
Qed.

Lemma quiet_coreSequence h : quiet minor (coreSequence h).
Proof.
  unfold coreSequence, waitForDOM, console. repeat step_main.
Qed.

(** *** How each step of [init] runs *)

Lemma bind_run {A B} (m : Run A) (k : A -> Run B) w a w1 t1 :
  m w = (Normal a, w1, t1) ->
  bind m k w = (outcome (k a w1), final (k a w1), t1 ++ trace (k a w1)).
Proof.
  intros E. rewrite (bind_normal m k w a) by (by rewrite E). by rewrite E.
Qed.

Lemma ret_bind {A B} (a : A) (k : A -> Run B) w : bind (ret a) k w = k a w.
Proof. unfold bind, ret. by destruct (k a w) as [[r w'] t]. Qed.

(** An activation never raises, never suspends, leaves the world as
    it was; its trace is the entry, what the [try] block emitted and,
    if that raised, one report with the phase tag of the site. *)
Lemma activate_run site h w :
  activate site h w =
    (Normal tt, w,
     Enter (siteMethod site)
       :: trace (siteBody site h w) ++ caught site (outcome (siteBody site h w))).
Proof.
  assert (forall m body phase,
    sync body -> quiet background body ->
    (emit (Enter m);; try_catch body (fun error => report error phase)) w =
      (Normal tt, w,
       Enter m :: trace (body w)
         ++ match outcome (body w) with
            | Throw e => [Reported e phase]
            | _ => []
            end)) as Hgen.
  { intros m body phase Hsync Hquiet.
    rewrite (bind_run _ _ w tt w [Enter m]) by done.
    destruct (Hquiet w) as [Hw _]. specialize (Hsync w).
    destruct (outcome (body w)) as [[]|e|] eqn:E; [| |done].
    - rewrite (try_catch_normal _ _ _ _ E).
      unfold outcome, final, trace in *.
      destruct (body w) as [[r w'] t]; simpl in *. subst.
      by rewrite app_nil_r.
    - rewrite (try_catch_throw _ _ _ _ E). rewrite Hw. reflexivity. }
  destruct site; simpl;
    [unfold initializeAnimations | unfold initializeWebGL];
    rewrite Hgen; try done.
  - apply (sync_siteBody AnimationSite).
  - apply (quiet_siteBody AnimationSite).
  - apply (sync_siteBody WebGLSite).
  - apply (quiet_siteBody WebGLSite).
Qed.

Lemma gated_run st site h w :
  when (Runtime.gate st (siteGate site)) (activate site h) w =
    (Normal tt, w, gated st site h w).
Proof.
  unfold when, gated. destruct (Runtime.gate st (siteGate site)); [|done].
  by rewrite activate_run.
Qed.

(** What follows the core sequence always completes: the gated
    activations, then the scroll set-up, then the flag. *)
Lemma enhancements_run h st w :
  enhancements h st w =
    (Normal tt, markInitialized w,
     gated st AnimationSite h w ++ gated st WebGLSite h w
       ++ [Enter InitializeScroll; Console Log MsgScrollInitialized;
           Console Log MsgInitialized]).
Proof.
  unfold enhancements.
  rewrite (bind_run _ _ w tt w _ (gated_run st AnimationSite h w)).
  rewrite (bind_run _ _ w tt w _ (gated_run st WebGLSite h w)).
  reflexivity.
Qed.

Lemma initCatch_run e w :
  initCatch e w =
    (Normal tt, showFallback w,
     [Console Err (MsgInitFailed e); Reported e "initialization";
      Enter ShowFallbackUI]).
Proof. reflexivity. Qed.

(** [init] is the core sequence, then the enhancements, under the
    [catch]. *)
Lemma init_split h w :
  init h w = try_catch (bind (coreSequence h) (enhancements h)) initCatch w.
Proof.
  unfold init, initWith. apply try_catch_ext.
  unfold coreSequence, enhancements.
  repeat (rewrite bind_assoc; apply bind_ext; [reflexivity|intros ? ?]).
  by rewrite ret_bind.
Qed.

(** The three ways [init] can go, by how the core sequence ends. *)
Lemma init_run h w :
  init h w =
    match outcome (coreSequence h w) with
    | Normal st =>
        (Normal tt, markInitialized w,
         trace (coreSequence h w) ++ trace (enhancements h st w))
    | Throw e =>
        (Normal tt, showFallback w,
         trace (coreSequence h w) ++ trace (initCatch e w))
    | Suspended => (Suspended, w, trace (coreSequence h w))
    end.
Proof.
  rewrite init_split.
  destruct (quiet_coreSequence h w) as [Hw _].
  destruct (outcome (coreSequence h w)) as [st|e|] eqn:E.
  - rewrite try_catch_normal with (a := tt).
    + rewrite (bind_normal _ _ _ _ E), Hw. by rewrite enhancements_run.
    + rewrite (bind_normal _ _ _ _ E), Hw. by rewrite enhancements_run.
  - rewrite try_catch_throw with (e := e).
    + rewrite (bind_throw _ _ _ _ E). simpl. by rewrite Hw.
    + by rewrite (bind_throw _ _ _ _ E).
  - rewrite try_catch_suspended.
    + rewrite (bind_suspended _ _ _ E). by rewrite Hw.
    + by rewrite (bind_suspended _ _ _ E).
Qed.

(** *** How the core sequence ends *)

Lemma core_succeeds h w st ps r :
  coreSucceeds h st ps r -> outcome (coreSequence h w) = Normal st.
Proof.
  intros (Hdom & Hst & Hps & Hr & Hok).
  unfold coreSequence, waitForDOM, call, console, domReady in *.
  rewrite Hst, Hps.
  destruct (readyState h); try rewrite Hdom; cbn; rewrite Hr; cbn;
    rewrite Hok; reflexivity.
Qed.

Lemma core_normal h w st :
  outcome (coreSequence h w) = Normal st ->
  exists ps r, coreSucceeds h st ps r.
Proof.
  unfold coreSucceeds, coreSequence, waitForDOM, call, console, domReady.
  destruct (runtimeGetState h) as [st0|e0]; [|by destruct (readyState h), (domContentLoadedFires h)].
  destruct (getAllProducts h) as [ps0|e1]; [|by destruct (readyState h), (domContentLoadedFires h)].
  destruct (renderAllProducts h ps0) as [r0|e2] eqn:Hr.
  - destruct (success r0) eqn:Hok.
    all: destruct (readyState h), (domContentLoadedFires h); cbn;
         try done; rewrite Hr; cbn; rewrite Hok; cbn; intros ?; simplify_eq;
         by exists ps0, r0.
  - destruct (readyState h), (domContentLoadedFires h); cbn; try done;
      rewrite Hr; by cbn.
Qed.

Lemma core_render_called h w ps :
  Called (RenderAllProducts ps) ∈ trace (coreSequence h w) ->
  domReady h = true /\
  (exists st, runtimeGetState h = Returns st) /\
  getAllProducts h = Returns ps.
Proof.
  unfold coreSequence, waitForDOM, call, console, domReady.
  destruct (runtimeGetState h) as [st0|e0];
    destruct (getAllProducts h) as [ps0|e1];
    try destruct (renderAllProducts h ps0) as [[[] n0 n1 msg]|e2] eqn:Hr;
    destruct (readyState h), (domContentLoadedFires h); cbn;
    try rewrite Hr; cbn;
    intros Hin;
    repeat (apply elem_of_cons in Hin as [Hin|Hin]; [simplify_eq|]);
    try (by apply elem_of_nil in Hin);
    eauto.
Qed.

Lemma core_render_failed h w st ps r :
  domReady h = true ->
  runtimeGetState h = Returns st ->
  getAllProducts h = Returns ps ->
  renderAllProducts h ps = Returns r ->
  success r = false ->
  outcome (coreSequence h w) = Throw (Error (error r)).
Proof.
  intros Hdom Hst Hps Hr Hko.
  unfold coreSequence, waitForDOM, call, console, domReady in *.
  rewrite Hst, Hps.
  destruct (readyState h); try rewrite Hdom; cbn; rewrite Hr; cbn;
    rewrite Hko; reflexivity.
Qed.

Lemma core_suspended h w :
  outcome (coreSequence h w) = Suspended <-> domReady h = false.
Proof.
  unfold coreSequence, waitForDOM, call, console, domReady.
  destruct (runtimeGetState h) as [st0|e0];
    destruct (getAllProducts h) as [ps0|e1];
    try destruct (renderAllProducts h ps0) as [[[] n0 n1 msg]|e2] eqn:Hr;
    destruct (readyState h), (domContentLoadedFires h); cbn;
    try rewrite Hr; cbn; done.
Qed.

(** Nothing after the core sequence calls the runtime for its state,
    the product data or the renderer. *)
Lemma enhancements_no_core_call h st w ev :
  isCoreCall ev = true -> ev ∉ trace (enhancements h st w).
Proof.
  intros Hev. rewrite enhancements_run. unfold trace; simpl.
  assert (forall site, ev ∉ gated st site h w) as Hgated.
  { intros site. unfold gated.
    destruct (Runtime.gate st (siteGate site)); [|apply not_elem_of_nil].
    rewrite activate_run. unfold trace at 1; simpl.
    destruct (quiet_siteBody site h w) as [_ Hbg].
    intros [->|[Hin|Hin]%elem_of_app]%elem_of_cons.
    - by destruct site.
    - by eapply background_no_core_call.
    - unfold caught in Hin.
      destruct (outcome (siteBody site h w));
        try (by apply elem_of_nil in Hin).
      apply list_elem_of_singleton in Hin. by subst. }
  intros [Hin|[Hin|Hin]%elem_of_app]%elem_of_app.
  - by apply (Hgated AnimationSite).
  - by apply (Hgated WebGLSite).
  - repeat (apply elem_of_cons in Hin as [->|Hin]; [done|]).
    by apply elem_of_nil in Hin.
Qed.

Lemma core_throw h w e :
  outcome (coreSequence h w) = Throw e <-> coreRaises h e.
Proof.
  split.
  - intros Hthrow.
    assert (domReady h = true) as Hdom.
    { destruct (domReady h) eqn:Hd; [done|].
      apply (core_suspended h w) in Hd. congruence. }
    revert Hthrow. unfold coreSequence, waitForDOM, call, console.
    destruct (runtimeGetState h) as [st0|e0] eqn:Hst;
    destruct (getAllProducts h) as [ps0|e1] eqn:Hps;
    try destruct (renderAllProducts h ps0) as [r0|e2] eqn:Hr;
    try destruct (success r0) eqn:Hok;
    destruct (readyState h), (domContentLoadedFires h); cbn;
    try rewrite Hr; cbn; try rewrite Hok; cbn;
    try done; intros [= <-];
    solve [ eapply raises_getState; eauto
          | eapply raises_getAllProducts; eauto
          | eapply raises_render; eauto
          | eapply raises_renderFailure; eauto ].
  - intros [e' Hdom Hst | st e' Hdom Hst Hps | st ps e' Hdom Hst Hps Hr
            | st ps r Hdom Hst Hps Hr Hko].
    4: by eapply core_render_failed.
    all: unfold coreSequence, waitForDOM, call, console, domReady in *;
         rewrite Hst; try rewrite Hps;
         destruct (readyState h); try rewrite Hdom; cbn;
         try rewrite Hr; reflexivity.
Qed.

(** *** Counting entries along [init] *)

Lemma callCount_caught m site r : callCount m (caught site r) = 0%nat.
Proof. by destruct r. Qed.

Lemma callCount_siteBody m site h w :
  isMinor (Enter m) = false -> callCount m (trace (siteBody site h w)) = 0%nat.
Proof.
  intros Hm. apply minor_callCount; [done|].
  destruct (quiet_siteBody site h w) as [_ Hbg].
  eapply Forall_impl; [exact Hbg | apply background_minor].
Qed.

Lemma callCount_gated m st site h w :
  isMinor (Enter m) = false ->
  callCount m (gated st site h w) =
    if Runtime.gate st (siteGate site)
    then (if decide (m = siteMethod site) then 1 else 0)%nat
    else 0%nat.
Proof.
  intros Hm. unfold gated.
  destruct (Runtime.gate st (siteGate site)); [|done].
  rewrite activate_run. unfold trace at 1. simpl.
  rewrite callCount_app, callCount_caught, callCount_siteBody by done.
  destruct (decide (m = siteMethod site)); lia.
Qed.

Lemma callCount_core m h w :
  isMinor (Enter m) = false -> callCount m (trace (coreSequence h w)) = 0%nat.
Proof.
  intros Hm. apply minor_callCount; [done|].
  by destruct (quiet_coreSequence h w).
Qed.

Lemma reportsOf_core h w : reportsOf (trace (coreSequence h w)) = [].
Proof. apply minor_no_reports. by destruct (quiet_coreSequence h w). Qed.

Lemma reportsOf_siteBody site h w : reportsOf (trace (siteBody site h w)) = [].
Proof.
  apply minor_no_reports. destruct (quiet_siteBody site h w) as [_ Hbg].
  eapply Forall_impl; [exact Hbg | apply background_minor].
Qed.

Lemma reportsWithPhase_app phase t1 t2 :
  reportsWithPhase phase (t1 ++ t2)
  = reportsWithPhase phase t1 ++ reportsWithPhase phase t2.
Proof.
  induction t1 as [|[| | |e p] t1 IH]; simpl; try done.
  destruct (decide (p = phase)); by rewrite IH.
Qed.

Lemma minor_reportsWithPhase phase t :
  Forall minor t -> reportsWithPhase phase t = [].
Proof.
  induction 1 as [|ev t Hev _ IH]; [done|].
  destruct ev; simpl; try done.
Qed.

Lemma reportsWithPhase_core phase h w :
  reportsWithPhase phase (trace (coreSequence h w)) = [].
Proof.
  apply minor_reportsWithPhase. by destruct (quiet_coreSequence h w).
Qed.

Lemma reportsWithPhase_gated phase st site h w :
  reportsWithPhase phase (gated st site h w) =
    if Runtime.gate st (siteGate site)
    then match outcome (siteBody site h w) with
         | Throw e => if decide (sitePhase site = phase) then [e] else []
         | _ => []
         end
    else [].
Proof.
  unfold gated. destruct (Runtime.gate st (siteGate site)); [|done].
  rewrite activate_run. simpl. rewrite reportsWithPhase_app.
  rewrite minor_reportsWithPhase.
  - by destruct (outcome (siteBody site h w)).
  - destruct (quiet_siteBody site h w) as [_ Hbg].
    eapply Forall_impl; [exact Hbg | apply background_minor].
Qed.

(** A renderer call seen in a run of [init] is the one of the core
    sequence. *)
Lemma init_render_called h w ps :
  Called (RenderAllProducts ps) ∈ trace (init h w) ->
  Called (RenderAllProducts ps) ∈ trace (coreSequence h w).
Proof.
  rewrite init_run.
  destruct (outcome (coreSequence h w)) as [st|e|] eqn:E;
    unfold trace at 1; simpl; [| |done].
  - intros [Hin|Hin]%elem_of_app; [done|].
    by apply enhancements_no_core_call in Hin.
  - intros [Hin|Hin]%elem_of_app; [done|].
    cbv in Hin.
    repeat (apply elem_of_cons in Hin as [Hin|Hin]; [done|]).
    by apply elem_of_nil in Hin.
Qed.

(** *** The claims *)

(** C2. In a run of [init] in which [renderAllProducts] is called and
    returns a result whose [success] is false, neither
    [initializeAnimations] nor [initializeWebGL] is entered (nor is
    [initializeScroll]); the error handler receives
    [new Error(renderResult.error)] under the phase
    ["initialization"], [showFallbackUI] is entered once and the
    document body is the fallback panel; [init] completes and the
    [App] object is as it was. *)
Theorem render_failure_aborts_startup h w ps r :
  Called (RenderAllProducts ps) ∈ trace (init h w) ->
  renderAllProducts h ps = Returns r ->
  success r = false ->
  callCount InitializeAnimations (trace (init h w)) = 0%nat /\
  callCount InitializeWebGL (trace (init h w)) = 0%nat /\
  callCount InitializeScroll (trace (init h w)) = 0%nat /\
  callCount ShowFallbackUI (trace (init h w)) = 1%nat /\
  reportsOf (trace (init h w)) = [(Error (error r), "initialization")] /\
  documentBody (final (init h w)) = FallbackPanel /\
  app (final (init h w)) = app w /\
  outcome (init h w) = Normal tt.
Proof.
  intros Hin Hr Hko.
  apply init_render_called in Hin.
  destruct (core_render_called h w ps Hin) as (Hdom & [st Hst] & Hps).
  pose proof (core_render_failed h w st ps r Hdom Hst Hps Hr Hko) as E.
  rewrite init_run, E, initCatch_run.
  simpl.
  rewrite !callCount_app, reportsOf_app, reportsOf_core.
  rewrite !callCount_core by done. by simpl.
Qed.

(** C3. An exception raised inside the [try] block of
    [initializeAnimations] (of [initializeWebGL]) is caught there:
    the activation returns normally, leaves the world as it was, and
    the error handler receives that exception once under the phase
    ["animations"] (["webgl"]).  In a run of [init] that enters the
    activation, [init] then goes on: it completes normally, the report
    is the only one under that phase, nothing is reported under
    ["initialization"], no fallback is shown, and [initializeScroll]
    is entered after the report, not before. *)
Theorem activation_failure_is_contained site h w e :
  outcome (siteBody site h w) = Throw e ->
  (outcome (activate site h w) = Normal tt /\
   final (activate site h w) = w /\
   reportsOf (trace (activate site h w)) = [(e, sitePhase site)]) /\
  (callCount (siteMethod site) (trace (init h w)) <> 0%nat ->
   outcome (init h w) = Normal tt /\
   reportsWithPhase (sitePhase site) (trace (init h w)) = [e] /\
   reportsWithPhase "initialization" (trace (init h w)) = [] /\
   callCount ShowFallbackUI (trace (init h w)) = 0%nat /\
   exists pre post,
     trace (init h w) = pre ++ Reported e (sitePhase site) :: post /\
     callCount InitializeScroll pre = 0%nat /\
     callCount InitializeScroll post = 1%nat).
Proof.
  intros Hraise. split.
  { rewrite activate_run, Hraise. simpl.
    rewrite reportsOf_app, reportsOf_siteBody. by destruct site. }
  rewrite init_run.
  destruct (outcome (coreSequence h w)) as [st|e0|] eqn:E; simpl.
  2,3: rewrite ?callCount_app, ?callCount_core by (by destruct site);
       destruct site; simpl; intros Hc; by exfalso.
  rewrite enhancements_run. simpl.
  rewrite !callCount_app, !reportsWithPhase_app.
  rewrite !reportsWithPhase_core, !callCount_core by (by destruct site).
  rewrite !callCount_gated by (by destruct site).
  rewrite !reportsWithPhase_gated. simpl.
  intros Hgate.
  assert (Runtime.gate st (siteGate site) = true) as Hopen.
  { destruct site; simpl in *;
      destruct (Runtime.gate st "allowAnimations"),
               (Runtime.gate st "allowWebGL"); simpl in *; done. }
  split; [done|].
  split.
  { destruct site; simpl in *; rewrite Hopen, Hraise; simpl;
      by repeat case_match. }
  split; [by repeat case_match|].
  split; [repeat case_match; lia|].
  destruct site; simpl in Hopen.
  - exists (trace (coreSequence h w)
            ++ Enter InitializeAnimations :: trace (animationsBody h w)),
           (gated st WebGLSite h w
            ++ [Enter InitializeScroll; Console Log MsgScrollInitialized;
                Console Log MsgInitialized]).
    split.
    { unfold gated at 1. cbn [siteGate].
      rewrite Hopen, activate_run, Hraise. simpl.
      by rewrite <- !app_assoc. }
    rewrite !callCount_app, callCount_core, callCount_gated by done. simpl.
    rewrite (callCount_siteBody _ AnimationSite) by done.
    split; [done | by repeat case_match].
  - exists (trace (coreSequence h w) ++ gated st AnimationSite h w
            ++ Enter InitializeWebGL :: trace (webglBody h w)),
           [Enter InitializeScroll; Console Log MsgScrollInitialized;
            Console Log MsgInitialized].
    split.
    { unfold gated at 2. cbn [siteGate].
      rewrite Hopen, activate_run, Hraise. simpl.
      by rewrite <- !app_assoc. }
    rewrite !callCount_app, callCount_core, callCount_gated by done. simpl.
    rewrite (callCount_siteBody _ WebGLSite) by done.
    split; [by repeat case_match | done].
Qed.

(** C4, as amended. In a run of [init] whose core sequence goes
    through (the document becomes ready, the capability state is
    read, the products are loaded, rendering reports success),
    [initializeAnimations] is entered exactly when
    [decisions.allowAnimations] is true, [initializeWebGL] exactly
    when [decisions.allowWebGL] is true, each at most once, and
    [initializeScroll] is entered once whatever the decisions are. *)
Theorem gating_after_core_sequence h w st ps r :
  coreSucceeds h st ps r ->
  (callCount InitializeAnimations (trace (init h w)) <> 0%nat <->
   Runtime.gate st "allowAnimations" = true) /\
  (callCount InitializeWebGL (trace (init h w)) <> 0%nat <->
   Runtime.gate st "allowWebGL" = true) /\
  (callCount InitializeAnimations (trace (init h w)) <= 1)%nat /\
  (callCount InitializeWebGL (trace (init h w)) <= 1)%nat /\
  callCount InitializeScroll (trace (init h w)) = 1%nat.
Proof.
  intros Hcore. pose proof (core_succeeds h w st ps r Hcore) as E.
  rewrite init_run, E, enhancements_run.
  simpl.
  rewrite !callCount_app, !callCount_core, !callCount_gated by done.
  simpl.
  destruct (Runtime.gate st "allowAnimations"),
           (Runtime.gate st "allowWebGL"); simpl;
    repeat split; intros; try done; lia.
Qed.

(** C5. [init] never rejects.  When the core sequence raises (the
    runtime while its state is read, the product data, the renderer,
    or the renderer's overall failure turned into an [Error]), [init]
    catches the exception: it completes normally, the error handler
    receives exactly that exception under the phase
    ["initialization"], [showFallbackUI] is entered once and the body
    is the fallback panel. *)
Theorem core_exception_is_reported h w :
  (forall e, outcome (init h w) <> Throw e) /\
  (forall e,
      coreRaises h e ->
      outcome (coreSequence h w) = Throw e /\
      outcome (init h w) = Normal tt /\
      reportsOf (trace (init h w)) = [(e, "initialization")] /\
      callCount ShowFallbackUI (trace (init h w)) = 1%nat /\
      callCount InitializeScroll (trace (init h w)) = 0%nat /\
      documentBody (final (init h w)) = FallbackPanel).
Proof.
  split.
  - intros e. rewrite init_run.
    by destruct (outcome (coreSequence h w)).
  - intros e He. apply (core_throw h w) in He.
    split; [done|].
    rewrite init_run, He, initCatch_run.
    simpl.
    rewrite !callCount_app, reportsOf_app, reportsOf_core.
    rewrite !callCount_core by done. by simpl.
Qed.

(** *** Where the flag is written *)

Lemma init_initWith h :
  init h = initWith (initializeAnimations h) (initializeWebGL h)
                    initializeScroll h.
Proof. reflexivity. Qed.

Lemma initWith_split (a g sc : Run unit) h w :
  initWith a g sc h w =
    try_catch
      (bind (coreSequence h)
            (fun st =>
               bind (gatedSteps a g sc st)
                    (fun _ => bind (setInitialized true)
                                   (fun _ => console Log MsgInitialized))))
      initCatch w.
Proof.
  unfold initWith. apply try_catch_ext.
  unfold coreSequence, gatedSteps.
  repeat (rewrite bind_assoc; apply bind_ext; [reflexivity|intros ? ?]).
  rewrite ret_bind.
  repeat (rewrite bind_assoc; apply bind_ext; [reflexivity|intros ? ?]).
  reflexivity.
Qed.

(** The ways [initWith] can go.  The steps after rendering are run
    from the world [init] found; the flag is written on the world
    they leave, and only if all of them completed. *)
Lemma initWith_run (a g sc : Run unit) h w :
  initWith a g sc h w =
    match outcome (coreSequence h w) with
    | Normal st =>
        match gatedSteps a g sc st w with
        | (Normal _, w', t) =>
            (Normal tt, markInitialized w',
             trace (coreSequence h w) ++ t ++ [Console Log MsgInitialized])
        | (Throw e, w', t) =>
            (Normal tt, showFallback w',
             trace (coreSequence h w) ++ t ++ trace (initCatch e w'))
        | (Suspended, w', t) =>
            (Suspended, w', trace (coreSequence h w) ++ t)
        end
    | Throw e =>
        (Normal tt, showFallback w,
         trace (coreSequence h w) ++ trace (initCatch e w))
    | Suspended => (Suspended, w, trace (coreSequence h w))
    end.
Proof.
  rewrite initWith_split.
  destruct (quiet_coreSequence h w) as [Hw _].
  unfold try_catch, bind at 1.
  unfold outcome, final, trace in *.
  destruct (coreSequence h w) as [[[st|e|] w0] tc]; simpl in *; subst w0.
  - unfold bind at 1.
    destruct (gatedSteps a g sc st w) as [[[[]|e|] w'] t]; simpl.
    + by rewrite <- ?app_assoc.
    + by rewrite <- ?app_assoc.
    + done.
  - done.
  - done.
Qed.

(** The flag after a run of [init], by how the core sequence ends. *)
Lemma init_flag_cases h w :
  (callCount ShowFallbackUI (trace (init h w)) <> 0%nat ->
   app (final (init h w)) = app w) /\
  (outcome (init h w) = Suspended -> final (init h w) = w) /\
  (initialized (app w) = false ->
   initialized (app (final (init h w))) = true ->
   (exists st ps r, coreSucceeds h st ps r) /\
   (exists pre,
       trace (init h w) =
         pre ++ [Enter InitializeScroll; Console Log MsgScrollInitialized;
                 Console Log MsgInitialized]) /\
   callCount InitializeScroll (trace (init h w)) = 1%nat /\
   callCount ShowFallbackUI (trace (init h w)) = 0%nat /\
   outcome (init h w) = Normal tt) /\
  (initialized (app w) = false ->
   initialized (app (final (init h w))) = true <->
   exists st, outcome (coreSequence h w) = Normal st).
Proof.
  rewrite init_run.
  destruct (outcome (coreSequence h w)) as [st|e|] eqn:E.
  - rewrite enhancements_run.
    simpl.
    rewrite !callCount_app, !callCount_core, !callCount_gated by done.
    simpl.
    split; [intros Hc; exfalso; apply Hc; repeat case_match; lia|].
    split; [done|].
    split; [|intros _; split; eauto].
    intros _ _.
    destruct (core_normal h w st E) as (ps & r & Hcore).
    split; [eauto|].
    split.
    { eexists. rewrite !app_assoc. reflexivity. }
    split; [repeat case_match; lia|].
    split; [repeat case_match; lia|done].
  - rewrite initCatch_run.
    simpl.
    split; [done|]. split; [done|].
    split; [intros Hw; destruct w as [[]]; simpl in *; congruence|].
    intros Hw. split; [|by intros [st ?]].
    destruct w as [[]]; simpl in *; congruence.
  - simpl.
    split; [done|]. split; [done|].
    split; [congruence|].
    intros Hw. split; [congruence | by intros [st ?]].
Qed.

(** C9. [initialized] is false in a fresh [App].  A run of [init]
    that shows the fallback UI, and one that stays parked on the DOM
    wait, leave the [App] object as it was; a run that turns the flag
    from false to true went through the whole core sequence, entered
    no fallback, reported nothing under ["initialization"], and ends
    with the scroll set-up and the closing message.

    Where the assignment stands is read off [initWith], which is
    [init] with any code at all in the place of its three later
    steps.  That code is run from the world [init] found, in which
    the flag is not yet written.  If the gated animation step, the
    gated WebGL step and the scroll step all complete, the flag is
    set on the world they leave and only the closing message
    follows; if one of them raises or suspends, or the core sequence
    does not return, [init] does not write the flag. *)
Theorem initialized_only_after_full_startup h w :
  initialized newApp = false /\
  (callCount ShowFallbackUI (trace (init h w)) <> 0%nat ->
   app (final (init h w)) = app w) /\
  (outcome (init h w) = Suspended -> final (init h w) = w) /\
  (initialized (app w) = false ->
   initialized (app (final (init h w))) = true ->
   (exists st ps r, coreSucceeds h st ps r) /\
   (exists pre,
       trace (init h w) =
         pre ++ [Enter InitializeScroll; Console Log MsgScrollInitialized;
                 Console Log MsgInitialized]) /\
   callCount InitializeScroll (trace (init h w)) = 1%nat /\
   callCount ShowFallbackUI (trace (init h w)) = 0%nat /\
   outcome (init h w) = Normal tt) /\
  (initialized (app w) = false ->
   initialized (app (final (init h w))) = true <->
   exists st, outcome (coreSequence h w) = Normal st) /\
  init h w =
    initWith (initializeAnimations h) (initializeWebGL h) initializeScroll h w /\
  (forall (animations webgl scroll : Run unit) st w' t,
      outcome (coreSequence h w) = Normal st ->
      gatedSteps animations webgl scroll st w = (Normal tt, w', t) ->
      initWith animations webgl scroll h w =
        (Normal tt, markInitialized w',
         trace (coreSequence h w) ++ t ++ [Console Log MsgInitialized])) /\
  (forall (animations webgl scroll : Run unit) st r w' t,
      outcome (coreSequence h w) = Normal st ->
      gatedSteps animations webgl scroll st w = (r, w', t) ->
      r <> Normal tt ->
      app (final (initWith animations webgl scroll h w)) = app w') /\
  (forall (animations webgl scroll : Run unit),
      (forall st, outcome (coreSequence h w) <> Normal st) ->
      app (final (initWith animations webgl scroll h w)) = app w).
Proof.
  destruct (init_flag_cases h w) as (Hshown & Hpending & Hset & Hiff).
  split; [done|].
  split; [exact Hshown|]. split; [exact Hpending|].
  split; [exact Hset|]. split; [exact Hiff|].
  split; [by rewrite init_initWith|].
  split; [|split].
  - intros a g sc st w' t E Hsteps.
    by rewrite initWith_run, E, Hsteps.
  - intros a g sc st r w' t E Hsteps Hr.
    rewrite initWith_run, E, Hsteps.
    by destruct r as [[]|e|].
  - intros a g sc Hcore. rewrite initWith_run.
    destruct (outcome (coreSequence h w)) as [st|e|] eqn:E; [|done|done].
    by destruct (Hcore st).
Qed.

(** With the detector as runtime and reduced motion requested, a run
    of [init] enters neither activation, whatever the device. *)
Lemma reduced_motion_startup (tn : Runtime.Tuning) hs h w :
  Runtime.prefersReducedMotion hs = Some true ->
  callCount InitializeAnimations
    (trace (init (withRuntime (Runtime.load tn hs) h) w)) = 0%nat /\
  callCount InitializeWebGL
    (trace (init (withRuntime (Runtime.load tn hs) h) w)) = 0%nat.
Proof.
  intros Hred. set (h' := withRuntime (Runtime.load tn hs) h).
  rewrite init_run.
  destruct (outcome (coreSequence h' w)) as [st|e|] eqn:E; simpl.
  - destruct (core_normal h' w st E) as (ps & r & _ & Hst & _).
    simpl in Hst. injection Hst as <-.
    pose proof (RuntimeFacts.readSignals_reduced tn hs Hred) as Hsig.
    pose proof (RuntimeFacts.computeState_reduced tn _ Hsig) as Hstate.
    destruct (RuntimeFacts.gate_mkDecisions
                (Runtime.computeState tn (Runtime.readSignals tn hs))
                false false false) as (Ha & _ & Hw).
    { by rewrite Hstate. }
    rewrite enhancements_run. simpl.
    rewrite !callCount_app, !callCount_core, !callCount_gated by done.
    simpl. by rewrite Ha, Hw.
  - rewrite !callCount_app, !callCount_core by done. done.
  - by rewrite !callCount_core.
Qed.

(** *** The heavy effects *)

Lemma existsb_Forall_false {A} (f : A -> bool) (l : list A) :
  Forall (fun x => f x = false) l -> existsb f l = false.
Proof. induction 1 as [|x l Hx _ IH]; simpl; [done|]. by rewrite Hx. Qed.

Lemma background_no_float t :
  Forall background t -> existsb isFloatStart t = false.
Proof.
  intros Ht. apply existsb_Forall_false.
  eapply Forall_impl; [exact Ht|]. intros ev (_ & _ & Htw & _)%background_inv.
  by destruct ev as [| |[]|]; try destruct tween.
Qed.

Lemma background_no_report_setup t :
  Forall background t -> reportsOf t = [].
Proof.
  intros Ht. apply minor_no_reports.
  eapply Forall_impl; [exact Ht | apply background_minor].
Qed.

(** Unless the viewport is wider than 1024 and the runtime allows the
    heavy tier, [loadGSAPAnimations] sets up no tilt. *)
Lemma loadGSAPAnimations_no_tilt h :
  ~ (1024 < windowInnerWidth h /\
     runtimeIsAllowed h "allowHeavy" = Returns true) ->
  quiet noTilt (loadGSAPAnimations h).
Proof.
  intros Hno. unfold loadGSAPAnimations.
  repeat lazymatch goal with
         | |- quiet _ (bind (if _ then _ else _) _) => fail
         | |- quiet _ (bind _ _) =>
             apply quiet_bind; [solve [repeat step_main] | intros ?]
         end.
  apply quiet_bind_val; [repeat step_main|].
  intros [] [w Hw];
    [exfalso | unfold when, setupButtonInteractions; repeat step_main].
  apply Hno. revert Hw.
  destruct (Z.ltb_spec 1024 (windowInnerWidth h)) as [Hwide|_]; [|done].
  unfold call.
  destruct (runtimeIsAllowed h "allowHeavy") as [[]|]; cbn; try done.
Qed.

Lemma initializeAnimations_no_tilt h w :
  ~ (1024 < windowInnerWidth h /\
     runtimeIsAllowed h "allowHeavy" = Returns true) ->
  existsb isTiltSetup (trace (initializeAnimations h w)) = false.
Proof.
  intros Hno. apply existsb_Forall_false.
  assert (quiet noTilt (initializeAnimations h)) as Hq.
  { unfold initializeAnimations, animationsBody, report, console.
    pose proof (loadGSAPAnimations_no_tilt h Hno).
    repeat step_main. }
  by destruct (Hq w).
Qed.

Lemma tweenTo_no_float h target tw :
  tw <> FloatLoop -> quiet (fun ev => isFloatStart ev = false) (tweenTo h target tw).
Proof.
  intros Htw. unfold tweenTo. apply quiet_bind; [apply quiet_gsap|].
  intros g. apply quiet_call. by destruct tw.
Qed.

(** Of all the closures [main.js] hands out, only the one hooked on
    the completion of the intro timeline starts the floating tween,
    and only if the runtime allows the heavy tier when it runs. *)
Lemma handle_float h cb ev w :
  existsb isFloatStart (trace (handle h cb ev w)) = true ->
  cb = IntroComplete /\ runtimeIsAllowed h "allowHeavy" = Returns true.
Proof.
  assert (forall (m : Run unit),
            quiet (fun ev => isFloatStart ev = false) m ->
            existsb isFloatStart (trace (m w)) = true -> False) as Hnone.
  { intros m Hm Hex. destruct (Hm w) as [_ Ht].
    apply existsb_Forall_false in Ht. congruence. }
  destruct cb; simpl; [done| |..].
  { unfold call.
    destruct (runtimeIsAllowed h "allowHeavy") as [[]|] eqn:Hallow;
      [done | by cbn | by cbn]. }
  all: intros Hex; exfalso; revert Hex; apply Hnone.
  all: try (apply tweenTo_no_float; done).
  - apply quiet_forEach. intros img. by apply tweenTo_no_float.
  - apply quiet_forEach. intros img. by apply tweenTo_no_float.
Qed.

(** C10. Inside [initializeAnimations], the tilt interactions
    ([setupMouseInteractions] and its two listeners) are set up only
    if the viewport is wider than 1024 and [isAllowed('allowHeavy')]
    returns true.  The floating tween is not started during the
    set-up; the only closure that starts it is the one hooked on
    [onComplete] of the intro timeline, and it does so only if
    [isAllowed('allowHeavy')] returns true when it runs.  When
    [window.gsap] is undefined, [initializeAnimations] only logs a
    warning: no animation set-up, no report. *)
Theorem heavy_effects_are_gated h w :
  (existsb isTiltSetup (trace (initializeAnimations h w)) = true ->
   1024 < windowInnerWidth h /\
   runtimeIsAllowed h "allowHeavy" = Returns true) /\
  existsb isFloatStart (trace (initializeAnimations h w)) = false /\
  (forall name cb,
      Called (TimelineEventCallback name cb)
        ∈ trace (initializeAnimations h w) ->
      name = "onComplete" /\ cb = IntroComplete) /\
  (forall h' cb ev w',
      existsb isFloatStart (trace (handle h' cb ev w')) = true ->
      cb = IntroComplete /\
      runtimeIsAllowed h' "allowHeavy" = Returns true) /\
  (windowGsap h = Returns None ->
   initializeAnimations h w =
     (Normal tt, w, [Enter InitializeAnimations; Console Warn MsgGsapMissing]) /\
   existsb isAnimationSetup (trace (initializeAnimations h w)) = false /\
   reportsOf (trace (initializeAnimations h w)) = []).
Proof.
  split.
  { intros Htilt.
    destruct (Z.ltb_spec 1024 (windowInnerWidth h)) as [Hwide|Hnarrow].
    - destruct (runtimeIsAllowed h "allowHeavy") as [[]|e] eqn:Hallow;
        [done | |];
        rewrite initializeAnimations_no_tilt in Htilt; try done;
        intros [_ ?]; congruence.
    - rewrite initializeAnimations_no_tilt in Htilt; [done|].
      intros [? _]; lia. }
  pose proof (activate_run AnimationSite h w) as Hrun. simpl in Hrun.
  destruct (quiet_siteBody AnimationSite h w) as [_ Hbg]. simpl in Hbg.
  split.
  { rewrite Hrun. simpl. rewrite existsb_app, background_no_float by done.
    by destruct (outcome (animationsBody h w)). }
  split.
  { intros name cb. rewrite Hrun. simpl.
    intros [Hin|[Hin|Hin]%elem_of_app]%elem_of_cons; [done| |].
    - rewrite Forall_forall in Hbg.
      destruct (background_inv _ (Hbg _ Hin)) as (_ & _ & _ & Hhook).
      simpl in Hhook. destruct cb; try done.
      by apply String.eqb_eq in Hhook.
    - destruct (outcome (animationsBody h w));
        try (by apply elem_of_nil in Hin).
      by apply list_elem_of_singleton in Hin. }
  split; [apply handle_float|].
  intros Hnone.
  assert (initializeAnimations h w =
            (Normal tt, w,
             [Enter InitializeAnimations; Console Warn MsgGsapMissing])) as ->.
  { unfold initializeAnimations, animationsBody. by rewrite Hnone. }
  done.
Qed.

End MainFacts.

(* ===================================================================== *)
(** ** More of [main.js]: the set-up methods, the closures, the shape
    of a run *)
(* ===================================================================== *)

Module Coverage.
Import Js JsFacts Main MainFacts.
Local Open Scope js_scope.
Local Open Scope string_scope.
Local Open Scope list_scope.

Implicit Types (h : Host) (w : World) (t : list Event) (site : Site).

(** *** Counting *)

Lemma countIf_app p t1 t2 :
  countIf p (t1 ++ t2) = (countIf p t1 + countIf p t2)%nat.
Proof. unfold countIf. by rewrite List.filter_app, length_app. Qed.

Lemma countIf_cons p ev t :
  countIf p (ev :: t) = ((if p ev then 1 else 0) + countIf p t)%nat.
Proof. unfold countIf. simpl. by destruct (p ev). Qed.

Lemma countIf_none p t :
  Forall (fun ev => p ev = false) t -> countIf p t = 0%nat.
Proof.
  induction 1 as [|ev t Hev _ IH]; [done|].
  by rewrite countIf_cons, Hev, IH.
Qed.

Lemma countIf_flat_map {A} p (f : A -> list Event) (xs : list A) n :
  (forall x, countIf p (f x) = n) ->
  countIf p (flat_map f xs) = (n * length xs)%nat.
Proof.
  intros Hf. induction xs as [|x xs IH]; simpl.
  - unfold countIf. simpl. lia.
  - rewrite countIf_app, Hf, IH. lia.
Qed.

(** *** How the set-up methods run *)

Lemma setupMouseInteractions_run h w :
  setupMouseInteractions h w = (Normal tt, w, mouseTrace h).
Proof. reflexivity. Qed.

Lemma forEach_emits {A} (xs : list A) (f : A -> Run unit)
      (tr : A -> list Event) w :
  (forall x, f x w = (Normal tt, w, tr x)) ->
  forEach xs f w = (Normal tt, w, flat_map tr xs).
Proof.
  intros Hf. induction xs as [|x xs IH]; simpl; [done|].
  rewrite (bind_run _ _ w tt w (tr x)) by apply Hf.
  by rewrite IH.
Qed.

Lemma setupButtonInteractions_run h w :
  setupButtonInteractions h w = (Normal tt, w, buttonTrace h).
Proof.
  unfold setupButtonInteractions.
  rewrite (bind_run _ _ w tt w [Enter SetupButtonInteractions]) by done.
  by rewrite (forEach_emits _ _ buttonListeners).
Qed.

(** The three ways [loadGSAPAnimations] can go once [window.gsap] is
    there: a raise while the intro timeline is built, a raise of
    [runtime.isAllowed] on a wide viewport, or completion. *)
Lemma loadGSAPAnimations_cases h w g :
  windowGsap h = Returns (Some g) ->
  (exists e t,
      loadGSAPAnimations h w = (Throw e, w, t) /\
      Forall (fun ev => isTimelineStep ev = true) t)
  \/ (exists e,
      1024 < windowInnerWidth h /\
      runtimeIsAllowed h "allowHeavy" = Raises e /\
      loadGSAPAnimations h w =
        (Throw e, w, introTrace ++ [Called (RuntimeIsAllowed "allowHeavy")]))
  \/ (exists heavy,
      heavyDecision h = Returns heavy /\
      loadGSAPAnimations h w =
        (Normal tt, w,
         introTrace ++ queryTrace h
           ++ (if heavy then mouseTrace h else []) ++ buttonTrace h)).
Proof.
  intros Hg. unfold loadGSAPAnimations, gsap, call, heavyDecision, queryTrace.
  rewrite Hg. cbn -[setupButtonInteractions].
  repeat match goal with
         | |- context [lift (gsapTimeline g)] =>
             destruct (gsapTimeline g) as [[]|?]; cbn -[setupButtonInteractions]
         | |- context [lift (timelineFrom g ?css)] =>
             destruct (timelineFrom g css) as [[]|?]; cbn -[setupButtonInteractions]
         | |- context [lift (timelineEventCallback g ?n)] =>
             destruct (timelineEventCallback g n) as [[]|?]; cbn -[setupButtonInteractions]
         end.
  all: try (left; eexists _, _; split; [reflexivity | by repeat constructor]).
  right.
  destruct (Z.ltb_spec 1024 (windowInnerWidth h)) as [Hwide|Hnarrow]; cbn -[setupButtonInteractions].
  - destruct (runtimeIsAllowed h "allowHeavy") as [[]|e]; cbn -[setupButtonInteractions].
    + right. exists true. split; [done|].
      rewrite setupButtonInteractions_run. reflexivity.
    + right. exists false. split; [done|].
      rewrite setupButtonInteractions_run. reflexivity.
    + left. by exists e.
  - right. exists false. split; [done|].
    rewrite setupButtonInteractions_run. reflexivity.
Qed.

(** *** How the activations end *)

#[local] Hint Resolve sync_gsap quiet_gsap sync_call : runs.

Lemma plain_loadGSAPAnimations h : quiet plain (loadGSAPAnimations h).
Proof.
  unfold loadGSAPAnimations, setupMouseInteractions, setupButtonInteractions.
  repeat step_main.
Qed.

Lemma countIf_plain p t :
  Forall plain t ->
  (forall ev, isPlain ev = true -> p ev = false) ->
  countIf p t = 0%nat.
Proof.
  intros Ht Hp. apply countIf_none.
  eapply Forall_impl; [exact Ht | exact Hp].
Qed.


Lemma animationsBody_present h w g :
  windowGsap h = Returns (Some g) ->
  animationsBody h w =
    bind (loadGSAPAnimations h) (fun _ => console Log MsgAnimationsEnabled) w.
Proof.
  intros Hg. unfold animationsBody. rewrite Hg. simpl lift.
  by rewrite ret_bind.
Qed.

(** The [try] block of an activation and the two messages: a block
    that completes logs exactly one of them, the warning exactly when
    the library is not there; a block that raises logs neither. *)
Lemma siteBody_ending site h w :
  match outcome (siteBody site h w) with
  | Normal _ =>
      exists present,
        libraryPresent site h = Returns present /\
        countIf (isAvailableLog site) (trace (siteBody site h w))
          = (if present then 1 else 0)%nat /\
        countIf (isMissingWarn site) (trace (siteBody site h w))
          = (if present then 0 else 1)%nat
  | Throw e =>
      countIf (isAvailableLog site) (trace (siteBody site h w)) = 0%nat /\
      countIf (isMissingWarn site) (trace (siteBody site h w)) = 0%nat /\
      (libraryPresent site h = Raises e \/
       libraryPresent site h = Returns true)
  | Suspended => False
  end.
Proof.
  destruct site; simpl.
  - destruct (windowGsap h) as [[g|]|e] eqn:Hg.
    + rewrite (animationsBody_present h w g Hg).
      destruct (plain_loadGSAPAnimations h w) as [Hw Hplain].
      pose proof (sync_loadGSAPAnimations h w) as Hsync.
      destruct (outcome (loadGSAPAnimations h w)) as [[]|e|] eqn:E;
        [| |done].
      * rewrite (bind_normal _ _ _ _ E), Hw. simpl.
        exists true. rewrite !countIf_app.
        rewrite !(countIf_plain _ _ Hplain) by (by intros [| | |]).
        by repeat split.
      * rewrite (bind_throw _ _ _ _ E). simpl.
        rewrite !(countIf_plain _ _ Hplain) by (by intros [| | |]).
        repeat split. by right.
    + unfold animationsBody. rewrite Hg. cbn. by exists false.
    + unfold animationsBody. rewrite Hg. cbn. repeat split. by left.
  - unfold webglBody.
    destruct (windowTHREE h) as [[[]|]|e]; cbn.
    + by exists true.
    + by exists false.
    + repeat split. by left.
Qed.


(** X6. If anything raises inside the [try] block of
    [initializeAnimations] (reading [window.gsap], building the intro
    timeline, asking the runtime), then no event listener at all has
    been registered, neither for the tilt nor on any button, the
    success message is not logged, and the exception is the one
    report. *)
Theorem listeners_need_the_whole_timeline h w e :
  outcome (animationsBody h w) = Throw e ->
  countIf isListener (trace (initializeAnimations h w)) = 0%nat /\
  countIf (isAvailableLog AnimationSite) (trace (initializeAnimations h w))
    = 0%nat /\
  reportsOf (trace (initializeAnimations h w)) = [(e, "animations")].
Proof.
  intros Hraise.
  pose proof (activate_run AnimationSite h w) as Hrun. simpl in Hrun.
  rewrite Hrun, Hraise. simpl.
  pose proof (siteBody_ending AnimationSite h w) as Hend. simpl in Hend.
  rewrite Hraise in Hend. destruct Hend as (Ha & _ & _).
  rewrite reportsOf_app, (reportsOf_siteBody AnimationSite).
  rewrite !countIf_cons, !countIf_app, Ha. simpl.
  split; [|done].
  assert (countIf isListener (trace (animationsBody h w)) = 0%nat) as ->; [|done].
  revert Hraise.
  destruct (windowGsap h) as [[g|]|e0] eqn:Hg.
  2,3: unfold animationsBody; rewrite Hg; by cbn.
  rewrite (animationsBody_present h w g Hg).
  destruct (loadGSAPAnimations_cases h w g Hg)
    as [(e1 & t & Hload & Ht)|[(e1 & _ & _ & Hload)|(heavy & _ & Hload)]].
  - rewrite (bind_throw _ _ _ e1) by (by rewrite Hload). rewrite Hload. simpl.
    intros _. apply countIf_none.
    eapply Forall_impl; [exact Ht|]. by intros [| [] | [] | ].
  - rewrite (bind_throw _ _ _ e1) by (by rewrite Hload). by rewrite Hload.
  - by rewrite (bind_run _ _ _ _ _ _ Hload).
Qed.

(** X7. On a viewport of width 1024 or less [initializeAnimations]
    never calls [runtime.isAllowed] and sets up no tilt; the whole
    activation is the same whatever [runtime.isAllowed] would have
    answered or raised. *)
Theorem narrow_viewport_never_asks_the_runtime h w :
  windowInnerWidth h <= 1024 ->
  countIf isRuntimeQuery (trace (initializeAnimations h w)) = 0%nat /\
  existsb isTiltSetup (trace (initializeAnimations h w)) = false /\
  (forall f,
      initializeAnimations (withIsAllowed f h) w = initializeAnimations h w).
Proof.
  intros Hnarrow.
  assert ((1024 <? windowInnerWidth h)%Z = false) as Hltb
    by (apply Z.ltb_ge; lia).
  assert (forall f,
             initializeAnimations (withIsAllowed f h) w
             = initializeAnimations h w) as Hsame.
  { intros f. unfold initializeAnimations, animationsBody, loadGSAPAnimations,
      gsap, setupMouseInteractions, setupButtonInteractions. simpl.
    by rewrite Hltb. }
  split; [|split; [|exact Hsame]].
  - rewrite <- (Hsame (fun _ => Returns false)).
    set (h0 := withIsAllowed (fun _ => Returns false) h).
    assert (quiet (fun ev => isRuntimeQuery ev = false)
                  (initializeAnimations h0)) as Hq.
    { unfold initializeAnimations, animationsBody, loadGSAPAnimations,
        setupMouseInteractions, setupButtonInteractions, report, console.
      simpl. rewrite Hltb. repeat step_main. }
    apply countIf_none. by destruct (Hq w).
  - apply initializeAnimations_no_tilt. intros [? _]. lia.
Qed.

(** X8. When the [try] block of [initializeAnimations] completes with
    [window.gsap] there, the run has built the whole intro timeline,
    asked the runtime only on a viewport wider than 1024, set up the
    tilt exactly when that answer was true, set up the button
    interactions in every case, and logged the success message last:
    the trace is exactly this.  So four listeners per button are
    registered whatever [allowHeavy] says. *)
Theorem completed_setup_wires_the_page h w :
  outcome (animationsBody h w) = Normal tt ->
  libraryPresent AnimationSite h = Returns true ->
  exists heavy,
    heavyDecision h = Returns heavy /\
    trace (initializeAnimations h w) =
      Enter InitializeAnimations
        :: introTrace ++ queryTrace h
           ++ (if heavy then mouseTrace h else []) ++ buttonTrace h
           ++ [Console Log MsgAnimationsEnabled] /\
    existsb isTiltSetup (trace (initializeAnimations h w)) = heavy /\
    countIf isListener (trace (initializeAnimations h w)) =
      ((if heavy then 2 else 0)
       + 4 * length (querySelectorAll h ".buy-btn, .cart-btn"))%nat.
Proof.
  intros Hdone Hlib.
  pose proof (activate_run AnimationSite h w) as Hrun. simpl in Hrun.
  rewrite Hrun, Hdone. simpl. clear Hrun.
  simpl in Hlib. destruct (windowGsap h) as [[g|]|e0] eqn:Hg; try done.
  revert Hdone. rewrite (animationsBody_present h w g Hg).
  destruct (loadGSAPAnimations_cases h w g Hg)
    as [(e1 & t & Hrun & _)|[(e1 & _ & _ & Hrun)|(heavy & Hheavy & Hrun)]].
  1,2: by rewrite (bind_throw _ _ _ e1) by (by rewrite Hrun).
  intros _. exists heavy. split; [done|].
  rewrite (bind_run _ _ _ _ _ _ Hrun). simpl.
  rewrite app_nil_r, <- !app_assoc.
  split; [done|].
  unfold buttonTrace, queryTrace.
  split.
  - assert (existsb isTiltSetup
              (flat_map buttonListeners
                 (querySelectorAll h ".buy-btn, .cart-btn")) = false) as Hb.
    { apply existsb_Forall_false. apply Forall_flat_map, Forall_forall.
      intros btn _. by repeat constructor. }
    destruct heavy, (1024 <? windowInnerWidth h)%Z; simpl;
      rewrite ?existsb_app; simpl; by rewrite ?Hb.
  - rewrite !countIf_cons, !countIf_app, !countIf_cons. simpl.
    rewrite (countIf_flat_map _ _ _ 4) by done.
    assert (countIf isListener [] = 0%nat) as Hnil by done.
    destruct heavy, (1024 <? windowInnerWidth h)%Z; simpl; rewrite ?Hnil; lia.
Qed.

(** X9. [setupButtonInteractions] registers exactly four listeners on
    every button the selector matches, in document order
    ([mouseenter], [mouseleave], [mousedown], [mouseup]), each closure
    holding the button it listens on; with no matching button it
    registers nothing.  It cannot raise and changes nothing else. *)
Theorem buttons_get_four_listeners_each h w :
  setupButtonInteractions h w = (Normal tt, w, buttonTrace h) /\
  countIf isListener (trace (setupButtonInteractions h w)) =
    (4 * length (querySelectorAll h ".buy-btn, .cart-btn"))%nat /\
  (querySelectorAll h ".buy-btn, .cart-btn" = [] ->
   trace (setupButtonInteractions h w) = [Enter SetupButtonInteractions]) /\
  (forall target name cb,
      Called (AddEventListener target name cb)
        ∈ trace (setupButtonInteractions h w) ->
      exists btn,
        btn ∈ querySelectorAll h ".buy-btn, .cart-btn" /\
        target = Node btn /\
        ((name = "mouseenter" /\ cb = ButtonEnter btn) \/
         (name = "mouseleave" /\ cb = ButtonLeave btn) \/
         (name = "mousedown" /\ cb = ButtonDown btn) \/
         (name = "mouseup" /\ cb = ButtonUp btn))).
Proof.
  rewrite setupButtonInteractions_run. simpl.
  split; [done|]. unfold buttonTrace.
  split; [|split].
  - rewrite countIf_cons. simpl.
    by rewrite (countIf_flat_map _ _ _ 4).
  - by intros ->.
  - intros target name cb [Hin|Hin]%elem_of_cons; [done|].
    apply list_elem_of_In, in_flat_map in Hin as (btn & Hbtn & Hin).
    exists btn. split; [by apply list_elem_of_In|].
    simpl in Hin.
    destruct Hin as [Hin|[Hin|[Hin|[Hin|[]]]]]; injection Hin as <- <- <-;
      split; try done; tauto.
Qed.

(** *** The closures *)

Lemma tweenTo_run h target tw w g :
  windowGsap h = Returns (Some g) ->
  tweenTo h target tw w =
    (match gsapTo g target tw with
     | Returns _ => Normal tt
     | Raises e => Throw e
     end, w, [Called (GsapTo target tw)]).
Proof.
  intros Hg. unfold tweenTo, gsap, call. rewrite Hg. cbn.
  by destruct (gsapTo g target tw) as [[]|e].
Qed.

Lemma forEach_returns {A} (xs : list A) (f : A -> Run unit)
      (tr : A -> list Event) w :
  (forall x, x ∈ xs -> f x w = (Normal tt, w, tr x)) ->
  forEach xs f w = (Normal tt, w, flat_map tr xs).
Proof.
  induction xs as [|x xs IH]; intros Hf; simpl; [done|].
  rewrite (bind_run _ _ w tt w (tr x)) by (apply Hf; by left).
  rewrite IH; [done|]. intros y Hy. apply Hf. by right.
Qed.

(** [forEach] stops at the first element whose callback raises. *)
Lemma forEach_stops {A} (pre post : list A) (x : A) (f : A -> Run unit)
      (tr : A -> list Event) tx e w :
  (forall y, y ∈ pre -> f y w = (Normal tt, w, tr y)) ->
  f x w = (Throw e, w, tx) ->
  forEach (pre ++ x :: post) f w = (Throw e, w, flat_map tr pre ++ tx).
Proof.
  intros Hpre Hx. induction pre as [|y pre IH]; simpl.
  - rewrite (bind_throw _ _ _ e) by (by rewrite Hx). by rewrite Hx.
  - rewrite (bind_run _ _ w tt w (tr y)) by (apply Hpre; by left).
    rewrite IH; [by rewrite <- app_assoc|].
    intros z Hz. apply Hpre. by right.
Qed.

Lemma tweenAll_flat_map nodes tw :
  flat_map (fun n => [Called (GsapTo (Node n) tw)]) nodes = tweenAll nodes tw.
Proof.
  unfold tweenAll. induction nodes as [|n nodes IH]; simpl; [done|].
  by rewrite IH.
Qed.


(** X10. The two tilt closures hold the node list that
    [querySelectorAll('.main-img')] returned when
    [setupMouseInteractions] ran, and both are registered on the
    document.  Called back later, on whatever the page has become,
    each issues one [gsap.to] per held node, in order: the tilt for
    the pointer position on [mousemove], the reset on [mouseleave]. *)
Theorem tilt_closures_hold_the_setup_nodes h h' w w' ev g :
  windowGsap h' = Returns (Some g) ->
  (forall n tw,
      n ∈ querySelectorAll h ".main-img" ->
      gsapTo g (Node n) tw = Returns tt) ->
  (forall target name cb,
      Called (AddEventListener target name cb)
        ∈ trace (setupMouseInteractions h w) ->
      target = Document /\
      ((name = "mousemove" /\
        cb = MouseMoveTilt (querySelectorAll h ".main-img")) \/
       (name = "mouseleave" /\
        cb = MouseLeaveReset (querySelectorAll h ".main-img")))) /\
  handle h' (MouseMoveTilt (querySelectorAll h ".main-img")) ev w' =
    (Normal tt, w',
     tweenAll (querySelectorAll h ".main-img")
              (Tilt (clientX ev) (clientY ev))) /\
  handle h' (MouseLeaveReset (querySelectorAll h ".main-img")) ev w' =
    (Normal tt, w', tweenAll (querySelectorAll h ".main-img") TiltReset).
Proof.
  intros Hg Hok. split; [|split].
  - intros target name cb. rewrite setupMouseInteractions_run. simpl.
    unfold mouseTrace.
    intros Hin.
    repeat (apply elem_of_cons in Hin as [Hin|Hin];
            [simplify_eq; by eauto|]).
    by apply elem_of_nil in Hin.
  - simpl. rewrite <- tweenAll_flat_map. apply forEach_returns.
    intros n Hn. by rewrite (tweenTo_run _ _ _ _ g Hg), Hok.
  - simpl. rewrite <- tweenAll_flat_map. apply forEach_returns.
    intros n Hn. by rewrite (tweenTo_run _ _ _ _ g Hg), Hok.
Qed.


(** X12. The tilt closures have no [try]: if [gsap.to] raises for one
    of the held nodes, the closure raises that exception to the host,
    the nodes before it have been tweened, the nodes after it are not,
    and the world is as it was. *)
Theorem failing_tween_stops_the_loop h g pre n post ev w e :
  windowGsap h = Returns (Some g) ->
  (forall y tw, y ∈ pre -> gsapTo g (Node y) tw = Returns tt) ->
  (forall tw, gsapTo g (Node n) tw = Raises e) ->
  handle h (MouseMoveTilt (pre ++ n :: post)) ev w =
    (Throw e, w, tweenAll (pre ++ [n]) (Tilt (clientX ev) (clientY ev))) /\
  handle h (MouseLeaveReset (pre ++ n :: post)) ev w =
    (Throw e, w, tweenAll (pre ++ [n]) TiltReset).
Proof.
  intros Hg Hpre Hn.
  assert (forall tw,
    forEach (pre ++ n :: post) (fun img => tweenTo h (Node img) tw) w =
      (Throw e, w, tweenAll (pre ++ [n]) tw)) as Hloop.
  { intros tw.
    rewrite (forEach_stops pre post n _
               (fun y => [Called (GsapTo (Node y) tw)])
               [Called (GsapTo (Node n) tw)] e).
    - rewrite tweenAll_flat_map. unfold tweenAll. by rewrite map_app.
    - intros y Hy. by rewrite (tweenTo_run _ _ _ _ g Hg), Hpre.
    - by rewrite (tweenTo_run _ _ _ _ g Hg), Hn. }
  split; simpl; apply Hloop.
Qed.

(** *** The shape of a run of [init] *)

Lemma core_pending h w :
  domReady h = false ->
  coreSequence h w =
    (Suspended, w,
     [Console Log MsgInitializing;
      Called (AddEventListener Document "DOMContentLoaded" PromiseResolve)]).
Proof.
  unfold domReady, coreSequence, waitForDOM, console.
  destruct (readyState h); try done. by intros ->.
Qed.

Lemma reportsOf_gated st site h w :
  reportsOf (gated st site h w) =
    if Runtime.gate st (siteGate site)
    then match outcome (siteBody site h w) with
         | Throw e => [(e, sitePhase site)]
         | _ => []
         end
    else [].
Proof.
  unfold gated. destruct (Runtime.gate st (siteGate site)); [|done].
  rewrite activate_run. simpl.
  rewrite reportsOf_app, reportsOf_siteBody.
  by destruct (outcome (siteBody site h w)).
Qed.


(** X2. [init] stays pending exactly when the document is still
    loading and the host never delivers [DOMContentLoaded]; such a
    run has logged its first message and registered the one listener,
    and nothing more.  No collaborator of the core sequence is called
    before the document is ready.  The listener is registered only
    while the document is loading: on an interactive or complete
    document [init] registers none. *)
Theorem nothing_runs_before_dom_ready h w :
  (outcome (init h w) = Suspended <->
   readyState h = Loading /\ domContentLoadedFires h = false) /\
  (outcome (init h w) = Suspended ->
   init h w =
     (Suspended, w,
      [Console Log MsgInitializing;
       Called (AddEventListener Document "DOMContentLoaded" PromiseResolve)])) /\
  (forall ev,
      ev ∈ trace (init h w) -> isCoreCall ev = true -> domReady h = true) /\
  countIf isDomHook (trace (init h w)) =
    match readyState h with Loading => 1%nat | _ => 0%nat end.
Proof.
  assert (outcome (init h w) = Suspended <-> domReady h = false) as Hpend.
  { rewrite init_run, <- (core_suspended h w).
    by destruct (outcome (coreSequence h w)). }
  split; [|split; [|split]].
  - rewrite Hpend. unfold domReady.
    destruct (readyState h), (domContentLoadedFires h);
      (split; [intros ? | intros [? ?]]); by try split.
  - intros Hs. apply Hpend in Hs.
    rewrite init_run, (core_pending h w Hs). done.
  - intros ev Hin Hcall. destruct (domReady h) eqn:Hdom; [done|].
    rewrite init_run, (core_pending h w Hdom) in Hin. simpl in Hin.
    repeat (apply elem_of_cons in Hin as [->|Hin]; [done|]).
    by apply elem_of_nil in Hin.
  - assert (countIf isDomHook (trace (coreSequence h w)) =
              match readyState h with Loading => 1%nat | _ => 0%nat end)
      as Hcore.
    { unfold coreSequence, waitForDOM, call, console.
      destruct (runtimeGetState h) as [st0|e0];
        destruct (getAllProducts h) as [ps0|e1];
        try destruct (renderAllProducts h ps0) as [[[] n0 n1 msg]|e2] eqn:Hr;
        destruct (readyState h), (domContentLoadedFires h); cbn;
        try rewrite Hr; cbn; done. }
    assert (forall site,
               quiet (fun e => isDomHook e = false) (siteBody site h)) as Hbody.
    { intros site. destruct site; simpl;
        [unfold animationsBody, loadGSAPAnimations, setupMouseInteractions,
           setupButtonInteractions
        | unfold webglBody];
        unfold console; repeat step_main. }
    assert (forall st site, countIf isDomHook (gated st site h w) = 0%nat)
      as Hgated.
    { intros st site. unfold gated.
      destruct (Runtime.gate st (siteGate site)); [|done].
      rewrite activate_run. simpl.
      rewrite countIf_cons, countIf_app. simpl.
      destruct (Hbody site w) as [_ Ht].
      rewrite (countIf_none _ _ Ht).
      by destruct (outcome (siteBody site h w)). }
    rewrite init_run.
    destruct (outcome (coreSequence h w)) as [st|e|] eqn:E; simpl.
    + rewrite enhancements_run. simpl.
      rewrite !countIf_app, !Hgated, Hcore.
      by destruct (readyState h).
    + rewrite countIf_app, Hcore. by destruct (readyState h).
    + done.
Qed.

(** X3. The product list handed to [renderAllProducts] in a run of
    [init] is the list [getAllProducts] returned, and by then the
    document is ready and the capability state has been read.  The
    renderer is called at most once and only if the product data was
    loaded, the product data at most once and only if the capability
    state was asked for, and that at most once. *)
Theorem renderer_gets_the_loaded_products h w :
  (forall ps,
      Called (RenderAllProducts ps) ∈ trace (init h w) ->
      getAllProducts h = Returns ps /\
      (exists st, runtimeGetState h = Returns st) /\
      domReady h = true) /\
  (countIf isRender (trace (init h w))
   <= countIf isGetAllProducts (trace (init h w)))%nat /\
  (countIf isGetAllProducts (trace (init h w))
   <= countIf isGetState (trace (init h w)))%nat /\
  (countIf isGetState (trace (init h w)) <= 1)%nat.
Proof.
  split.
  { intros ps Hin. apply init_render_called in Hin.
    destruct (core_render_called h w ps Hin) as (? & ? & ?). by repeat split. }
  assert (forall p st,
             (forall ev, p ev = true -> isCoreCall ev = true) ->
             countIf p (trace (enhancements h st w)) = 0%nat) as Hrest.
  { intros p st Hp. apply countIf_none, Forall_forall. intros ev Hin.
    destruct (p ev) eqn:Hpe; [|done]. exfalso.
    apply Hp in Hpe.
    by apply (enhancements_no_core_call h st w ev Hpe). }
  assert ((countIf isRender (trace (coreSequence h w))
           <= countIf isGetAllProducts (trace (coreSequence h w)))%nat /\
          (countIf isGetAllProducts (trace (coreSequence h w))
           <= countIf isGetState (trace (coreSequence h w)))%nat /\
          (countIf isGetState (trace (coreSequence h w)) <= 1)%nat) as Hcore.
  { unfold coreSequence, waitForDOM, call, console.
    destruct (runtimeGetState h) as [st0|e0];
      destruct (getAllProducts h) as [ps0|e1];
      try destruct (renderAllProducts h ps0) as [[[] n0 n1 msg]|e2] eqn:Hr;
      destruct (readyState h), (domContentLoadedFires h); cbn;
      try rewrite Hr; cbn; unfold countIf; simpl; lia. }
  rewrite init_run.
  destruct (outcome (coreSequence h w)) as [st|e|] eqn:E; simpl.
  - rewrite !countIf_app.
    rewrite !(Hrest _ st) by (by intros [| |[]|]).
    by rewrite !Nat.add_0_r.
  - rewrite !countIf_app, !countIf_cons. simpl.
    assert (forall p, countIf p [] = 0%nat) as Hnil by done.
    by rewrite !Hnil, !Nat.add_0_r.
  - done.
Qed.

(** X4. The reports a run of [init] sends to the error handler:
    either a core step raised and the only report is that exception
    under ["initialization"], or no core step raised and there is at
    most one report under ["animations"] followed by at most one
    under ["webgl"].  So there are never more than two reports, and a
    report under ["initialization"] never comes with another. *)
Theorem reports_of_a_run h w :
  (exists e,
      coreRaises h e /\
      reportsOf (trace (init h w)) = [(e, "initialization")])
  \/
  ((forall e, ~ coreRaises h e) /\
   exists ra rw,
     reportsOf (trace (init h w)) =
       map (fun e => (e, "animations")) ra ++ map (fun e => (e, "webgl")) rw /\
     (length ra <= 1)%nat /\ (length rw <= 1)%nat).
Proof.
  rewrite init_run.
  destruct (outcome (coreSequence h w)) as [st|e|] eqn:E.
  - right. split.
    { intros e He. apply (core_throw h w) in He. congruence. }
    rewrite enhancements_run. simpl.
    rewrite !reportsOf_app, reportsOf_core, !reportsOf_gated. simpl.
    exists (if Runtime.gate st "allowAnimations"
            then match outcome (animationsBody h w) with
                 | Throw e => [e]
                 | _ => []
                 end
            else []),
           (if Runtime.gate st "allowWebGL"
            then match outcome (webglBody h w) with
                 | Throw e => [e]
                 | _ => []
                 end
            else []).
    repeat split; repeat case_match; simpl; try done; lia.
  - left. exists e. split; [by apply (core_throw h w)|].
    rewrite initCatch_run. simpl.
    by rewrite reportsOf_app, reportsOf_core.
  - right. split.
    { intros e He. apply (core_throw h w) in He. congruence. }
    exists [], []. simpl. rewrite reportsOf_core.
    repeat split; simpl; lia.
Qed.

(** X13. The trace of a run of [init] whose core sequence goes
    through, in full: the opening message, the [DOMContentLoaded]
    listener if the document was loading, the capability state read
    and its score and decisions logged, the products loaded and
    rendered and the renderer's two counts logged, then the animation
    activation if its gate is true, then the WebGL activation if its
    gate is true, then the scroll set-up and the closing message. *)
Theorem trace_of_a_good_startup h w st ps r :
  coreSucceeds h st ps r ->
  trace (init h w) =
    Console Log MsgInitializing
      :: domHook h
      ++ [Called RuntimeGetState;
          Console Log (MsgRuntimeScore (Runtime.score st));
          Console Log (MsgDecisions (Runtime.decisions st));
          Called GetAllProducts;
          Called (RenderAllProducts ps);
          Console Log (MsgProductsRendered (successful r) (total r))]
      ++ gated st AnimationSite h w
      ++ gated st WebGLSite h w
      ++ [Enter InitializeScroll; Console Log MsgScrollInitialized;
          Console Log MsgInitialized].
Proof.
  intros Hcore. pose proof (core_succeeds h w st ps r Hcore) as E.
  rewrite init_run, E, enhancements_run. simpl.
  destruct Hcore as (Hdom & Hst & Hps & Hr & Hok).
  assert (trace (coreSequence h w) =
            Console Log MsgInitializing
              :: domHook h
              ++ [Called RuntimeGetState;
                  Console Log (MsgRuntimeScore (Runtime.score st));
                  Console Log (MsgDecisions (Runtime.decisions st));
                  Called GetAllProducts;
                  Called (RenderAllProducts ps);
                  Console Log (MsgProductsRendered (successful r) (total r))])
    as ->.
  { unfold coreSequence, waitForDOM, call, console, domReady, domHook in *.
    rewrite Hst, Hps.
    destruct (readyState h); try rewrite Hdom; cbn; rewrite Hr; cbn;
      rewrite Hok; reflexivity. }
  simpl. by rewrite <- !app_assoc.
Qed.

End Coverage.


(* ===================================================================== *)
(** ** The properties at work on concrete devices and hosts *)
(* ===================================================================== *)

Module Checks.
Import Js Main Scenario RuntimeFacts MainFacts.
Local Open Scope string_scope.
Local Open Scope list_scope.

(** *** The three scenarios of the detector *)

Example strong_device_opens_every_gate :
  let st := Runtime.state (Runtime.load tuning strongDevice) in
  Runtime.score st = 90 /\
  Runtime.gate st "allowAnimations" = true /\
  Runtime.gate st "allowHeavy" = true /\
  Runtime.gate st "allowWebGL" = true.
Proof. vm_compute. done. Qed.

Example weak_device_closes_every_gate :
  let st := Runtime.state (Runtime.load tuning weakDevice) in
  Runtime.score st = 20 /\
  Runtime.gate st "allowAnimations" = false /\
  Runtime.gate st "allowHeavy" = false /\
  Runtime.gate st "allowWebGL" = false.
Proof. vm_compute. done. Qed.

Example bare_device_uses_defaults :
  Runtime.signals (Runtime.state (Runtime.load tuning bareDevice)) =
    {| Runtime.memory := 4; Runtime.cores := 4; Runtime.network := "4g";
       Runtime.reducedMotion := false; Runtime.viewportWidth := 1024 |}.
Proof. reflexivity. Qed.

(** *** Instances of the claims *)

Lemma reduced_motion_on_strong_device :
  Runtime.reducedMotion (Runtime.readSignals tuning strongReducedDevice) = true /\
  Runtime.gate (Runtime.state (Runtime.load tuning strongReducedDevice))
               "allowAnimations" = false /\
  Runtime.gate (Runtime.state (Runtime.load tuning strongReducedDevice))
               "allowHeavy" = false /\
  Runtime.gate (Runtime.state (Runtime.load tuning strongReducedDevice))
               "allowWebGL" = false.
Proof.
  split; [reflexivity|].
  pose proof (reduced_motion_closes_every_gate tuning
                (Runtime.readSignals tuning strongReducedDevice) eq_refl)
    as (_ & _ & _ & Hgate & _).
  repeat split; apply Hgate.
Defined.

Lemma unknown_gate_on_strong_device :
  ("allowEverything" ∉ dom (Runtime.decisions (Runtime.state strongRuntime))) /\
  Runtime.isAllowed strongRuntime "allowEverything" = false.
Proof.
  assert ("allowEverything"
            ∉ dom (Runtime.decisions (Runtime.state strongRuntime))) as Hname.
  { apply not_elem_of_dom. vm_compute. reflexivity. }
  split; [exact Hname|].
  apply (isAllowed_unknown_gate strongRuntime "allowEverything" Hname).
Defined.

Lemma thresholds_on_strong_device :
  Runtime.well_tuned tuning /\
  Runtime.score (Runtime.computeState tuning
                   (Runtime.readSignals tuning strongDevice)) = 90 /\
  (Runtime.gate (Runtime.computeState tuning
                   (Runtime.readSignals tuning strongDevice)) "allowHeavy" = true ->
   Runtime.gate (Runtime.computeState tuning
                   (Runtime.readSignals tuning strongDevice)) "allowAnimations" = true).
Proof.
  assert (Runtime.well_tuned tuning) as Htuned
    by (unfold Runtime.well_tuned; simpl; lia).
  split; [exact Htuned|].
  pose proof (gates_threshold_the_score tuning
                (Runtime.readSignals tuning strongDevice) Htuned eq_refl)
    as (Hscore & _ & _ & _ & Himp & _).
  split; [rewrite Hscore; reflexivity|].
  intros Hheavy. apply Himp. by left.
Defined.

Lemma render_failure_on_page :
  (Called (RenderAllProducts catalogue) ∈ trace (init renderFails pageLoad)) /\
  callCount InitializeAnimations (trace (init renderFails pageLoad)) = 0%nat /\
  callCount InitializeWebGL (trace (init renderFails pageLoad)) = 0%nat /\
  documentBody (final (init renderFails pageLoad)) = FallbackPanel.
Proof.
  assert (Called (RenderAllProducts catalogue)
            ∈ trace (init renderFails pageLoad)) as Hin.
  { vm_compute. repeat constructor. }
  split; [exact Hin|].
  pose proof (render_failure_aborts_startup renderFails pageLoad catalogue
                _ Hin eq_refl eq_refl)
    as (Ha & Hw & _ & _ & _ & Hbody & _).
  repeat split; assumption.
Defined.

Lemma activation_failures_on_page :
  (outcome (siteBody AnimationSite gsapBreaks pageLoad)
     = Throw (Thrown "GSAP target not found") /\
   reportsOf (trace (initializeAnimations gsapBreaks pageLoad))
     = [(Thrown "GSAP target not found", "animations")] /\
   reportsWithPhase "animations" (trace (init gsapBreaks pageLoad))
     = [Thrown "GSAP target not found"]) /\
  (outcome (siteBody WebGLSite threeBreaks pageLoad)
     = Throw (Thrown "THREE accessor failed") /\
   reportsOf (trace (initializeWebGL threeBreaks pageLoad))
     = [(Thrown "THREE accessor failed", "webgl")] /\
   reportsWithPhase "webgl" (trace (init threeBreaks pageLoad))
     = [Thrown "THREE accessor failed"]).
Proof.
  split.
  - assert (outcome (siteBody AnimationSite gsapBreaks pageLoad)
              = Throw (Thrown "GSAP target not found")) as Hraise
      by (vm_compute; reflexivity).
    split; [exact Hraise|].
    pose proof (activation_failure_is_contained AnimationSite gsapBreaks
                  pageLoad _ Hraise) as [(_ & _ & Hlocal) Hinit].
    split; [exact Hlocal|].
    apply Hinit. vm_compute. discriminate.
  - assert (outcome (siteBody WebGLSite threeBreaks pageLoad)
              = Throw (Thrown "THREE accessor failed")) as Hraise
      by (vm_compute; reflexivity).
    split; [exact Hraise|].
    pose proof (activation_failure_is_contained WebGLSite threeBreaks
                  pageLoad _ Hraise) as [(_ & _ & Hlocal) Hinit].
    split; [exact Hlocal|].
    apply Hinit. vm_compute. discriminate.
Defined.

(** The counterexample to the gating read as holding of every run:
    on a strong device [allowAnimations] and [allowWebGL] are true,
    yet when rendering reports failure neither activation nor the
    scroll set-up is entered. *)
Lemma gating_fails_when_rendering_fails :
  ~ gating_in_every_run renderFails pageLoad.
Proof.
  intros Hgating.
  destruct (Hgating (Runtime.state strongRuntime) eq_refl) as (_ & _ & Hscroll).
  apply Hscroll. vm_compute. reflexivity.
Qed.

Lemma gating_on_healthy_page :
  coreSucceeds healthy (Runtime.state strongRuntime) catalogue
    {| success := true; successful := 5; total := 5; error := None |} /\
  callCount InitializeAnimations (trace (init healthy pageLoad)) <> 0%nat /\
  callCount InitializeWebGL (trace (init healthy pageLoad)) <> 0%nat /\
  callCount InitializeScroll (trace (init healthy pageLoad)) = 1%nat.
Proof.
  assert (coreSucceeds healthy (Runtime.state strongRuntime) catalogue
            {| success := true; successful := 5; total := 5; error := None |})
    as Hcore by (repeat split).
  split; [exact Hcore|].
  pose proof (gating_after_core_sequence healthy pageLoad _ _ _ Hcore)
    as (Hanim & Hwebgl & _ & _ & Hscroll).
  split; [apply Hanim; vm_compute; reflexivity|].
  split; [apply Hwebgl; vm_compute; reflexivity|].
  exact Hscroll.
Defined.

Lemma runtime_failure_on_page :
  coreRaises runtimeBreaks (Thrown "runtime unavailable") /\
  outcome (init runtimeBreaks pageLoad) = Normal tt /\
  reportsOf (trace (init runtimeBreaks pageLoad))
    = [(Thrown "runtime unavailable", "initialization")] /\
  documentBody (final (init runtimeBreaks pageLoad)) = FallbackPanel.
Proof.
  assert (coreRaises runtimeBreaks (Thrown "runtime unavailable")) as Hraise
    by (apply raises_getState; reflexivity).
  split; [exact Hraise|].
  destruct (core_exception_is_reported runtimeBreaks pageLoad) as [_ Hcatch].
  destruct (Hcatch _ Hraise) as (_ & Hout & Hrep & _ & _ & Hbody).
  repeat split; assumption.
Defined.

Lemma flag_on_failing_and_healthy_page :
  (callCount ShowFallbackUI (trace (init renderFails pageLoad)) <> 0%nat /\
   initialized (app (final (init renderFails pageLoad))) = false) /\
  (outcome (coreSequence healthy pageLoad)
     = Normal (Runtime.state strongRuntime) /\
   outcome (gatedSteps (initializeAnimations healthy) (initializeWebGL healthy)
                       guardedScroll (Runtime.state strongRuntime) pageLoad)
     = Normal tt /\
   final (initWith (initializeAnimations healthy) (initializeWebGL healthy)
                   guardedScroll healthy pageLoad)
     = markInitialized pageLoad /\
   outcome (initWith (initializeAnimations healthy) (initializeWebGL healthy)
                     guardedScroll healthy pageLoad)
     = Normal tt).
Proof.
  split.
  - assert (callCount ShowFallbackUI (trace (init renderFails pageLoad))
              <> 0%nat) as Hshown by (vm_compute; discriminate).
    split; [exact Hshown|].
    destruct (initialized_only_after_full_startup renderFails pageLoad)
      as (_ & Hkeep & _).
    by rewrite (Hkeep Hshown).
  - assert (outcome (coreSequence healthy pageLoad)
              = Normal (Runtime.state strongRuntime)) as Hcore
      by (vm_compute; reflexivity).
    assert (gatedSteps (initializeAnimations healthy) (initializeWebGL healthy)
                       guardedScroll (Runtime.state strongRuntime) pageLoad
            = (Normal tt, pageLoad,
               trace (gatedSteps (initializeAnimations healthy)
                                 (initializeWebGL healthy) guardedScroll
                                 (Runtime.state strongRuntime) pageLoad)))
      as Hsteps by (vm_compute; reflexivity).
    split; [exact Hcore|].
    split; [by rewrite Hsteps|].
    destruct (initialized_only_after_full_startup healthy pageLoad)
      as (_ & _ & _ & _ & _ & _ & Hlast & _).
    by rewrite (Hlast _ _ _ _ _ _ Hcore Hsteps).
Defined.

Lemma tilt_on_healthy_page :
  existsb isTiltSetup (trace (initializeAnimations healthy pageLoad)) = true /\
  1024 < windowInnerWidth healthy /\
  runtimeIsAllowed healthy "allowHeavy" = Returns true.
Proof.
  assert (existsb isTiltSetup (trace (initializeAnimations healthy pageLoad))
            = true) as Htilt by (vm_compute; reflexivity).
  split; [exact Htilt|].
  destruct (heavy_effects_are_gated healthy pageLoad) as (Hgate & _).
  exact (Hgate Htilt).
Defined.

(** On the healthy page the floating tween is started by the
    intro-completion closure; on a weak device it is not. *)
Example float_starts_on_completion :
  existsb isFloatStart (trace (handle healthy IntroComplete click pageLoad))
    = true /\
  existsb isFloatStart
    (trace (handle (withRuntime weakRuntime healthy) IntroComplete click pageLoad))
    = false.
Proof. vm_compute. done. Qed.

End Checks.


(* ===================================================================== *)
(** ** The further properties at work on the scenarios *)
(* ===================================================================== *)

Module CoverageChecks.
Import Js Main Scenario MainFacts Coverage.
Local Open Scope string_scope.
Local Open Scope list_scope.

Lemma broken_timeline_registers_nothing :
  outcome (animationsBody gsapBreaks pageLoad)
    = Throw (Thrown "GSAP target not found") /\
  countIf isListener (trace (initializeAnimations gsapBreaks pageLoad)) = 0%nat /\
  countIf isListener (trace (initializeAnimations healthy pageLoad)) = 10%nat.
Proof.
  assert (outcome (animationsBody gsapBreaks pageLoad)
            = Throw (Thrown "GSAP target not found")) as Hraise
    by (vm_compute; reflexivity).
  split; [exact Hraise|].
  split; [|vm_compute; reflexivity].
  exact (proj1 (listeners_need_the_whole_timeline gsapBreaks pageLoad _ Hraise)).
Defined.

Lemma phone_ignores_a_raising_runtime :
  windowInnerWidth phone <= 1024 /\
  countIf isRuntimeQuery (trace (initializeAnimations phone pageLoad)) = 0%nat /\
  initializeAnimations (withIsAllowed raisingQuery phone) pageLoad
    = initializeAnimations phone pageLoad /\
  reportsOf (trace (initializeAnimations (withIsAllowed raisingQuery healthy)
                                         pageLoad))
    = [(Thrown "runtime query failed", "animations")].
Proof.
  assert (windowInnerWidth phone <= 1024) as Hnarrow by (vm_compute; discriminate).
  split; [exact Hnarrow|].
  destruct (narrow_viewport_never_asks_the_runtime phone pageLoad Hnarrow)
    as (Hcount & _ & Hsame).
  split; [exact Hcount|].
  split; [apply Hsame | vm_compute; reflexivity].
Defined.

Lemma healthy_page_is_wired :
  outcome (animationsBody healthy pageLoad) = Normal tt /\
  libraryPresent AnimationSite healthy = Returns true /\
  existsb isTiltSetup (trace (initializeAnimations healthy pageLoad)) = true /\
  countIf isListener (trace (initializeAnimations healthy pageLoad)) = 10%nat.
Proof.
  assert (outcome (animationsBody healthy pageLoad) = Normal tt) as Hdone
    by (vm_compute; reflexivity).
  assert (libraryPresent AnimationSite healthy = Returns true) as Hlib
    by reflexivity.
  split; [exact Hdone|]. split; [exact Hlib|].
  destruct (completed_setup_wires_the_page healthy pageLoad Hdone Hlib)
    as (heavy & Hheavy & _ & Htilt & Hcount).
  assert (heavy = true) as -> by (vm_compute in Hheavy; congruence).
  split; [exact Htilt | exact Hcount].
Defined.

Lemma tilt_survives_a_page_change :
  querySelectorAll emptied ".main-img" = [] /\
  handle emptied (MouseMoveTilt (querySelectorAll healthy ".main-img"))
         pointer pageLoad
  = (Normal tt, pageLoad,
     [Called (GsapTo (Node (element 0)) (Tilt 720 100));
      Called (GsapTo (Node (element 1)) (Tilt 720 100))]).
Proof.
  split; [reflexivity|].
  assert (windowGsap emptied = Returns (Some steadyGsap)) as Hg by reflexivity.
  assert (forall n tw,
             n ∈ querySelectorAll healthy ".main-img" ->
             gsapTo steadyGsap (Node n) tw = Returns tt) as Hok
    by (intros; reflexivity).
  destruct (tilt_closures_hold_the_setup_nodes healthy emptied pageLoad
              pageLoad pointer steadyGsap Hg Hok) as (_ & Hmove & _).
  exact Hmove.
Defined.

Lemma picky_library_stops_the_tilt :
  windowGsap pickyHost = Returns (Some pickyGsap) /\
  handle pickyHost (MouseMoveTilt [element 0; element 1; element 2])
         pointer pageLoad
  = (Throw (Thrown "GSAP cannot tween"), pageLoad,
     [Called (GsapTo (Node (element 0)) (Tilt 720 100));
      Called (GsapTo (Node (element 1)) (Tilt 720 100))]).
Proof.
  assert (windowGsap pickyHost = Returns (Some pickyGsap)) as Hg by reflexivity.
  split; [exact Hg|].
  assert (forall y tw,
             y ∈ [element 0] -> gsapTo pickyGsap (Node y) tw = Returns tt)
    as Hpre.
  { intros y tw Hy. apply list_elem_of_singleton in Hy. by subst. }
  assert (forall tw,
             gsapTo pickyGsap (Node (element 1)) tw
             = Raises (Thrown "GSAP cannot tween")) as Hn
    by (intros; reflexivity).
  exact (proj1 (failing_tween_stops_the_loop pickyHost pickyGsap
                  [element 0] (element 1) [element 2] pointer pageLoad _
                  Hg Hpre Hn)).
Defined.

Lemma healthy_startup_trace :
  coreSucceeds healthy (Runtime.state strongRuntime) catalogue
    {| success := true; successful := 5; total := 5; error := None |} /\
  length (trace (init healthy pageLoad)) = 35%nat.
Proof.
  assert (coreSucceeds healthy (Runtime.state strongRuntime) catalogue
            {| success := true; successful := 5; total := 5; error := None |})
    as Hcore by (repeat split).
  split; [exact Hcore|].
  rewrite (trace_of_a_good_startup healthy pageLoad _ _ _ Hcore).
  vm_compute. reflexivity.
Defined.

End CoverageChecks.
